(** * tval / tonic_validate: prompt construction, context-length recovery
      and the PII metric

    A shallow embedding of
      - [tonic_validate/utils/llm_calls.py]   (module [llm_calls]),
      - [tval/llm_calls.py]                   (module [tval_llm_calls]),
      - [tonic_validate/metrics/answer_contains_pii_metric.py]
                                              (module [answer_contains_pii_metric]),
    followed by the properties of these functions.

    Python [str] values are modelled as [string] (a text by its
    characters, a character outside ASCII by the bytes of its UTF-8
    encoding), Python [int] as [Z], a call that may raise as a value of
    [result].  [str.lower], which depends on the Unicode case tables, is a
    parameter of the code that calls it. *)

From Stdlib Require Import String Ascii List ZArith QArith Bool Lia.
From Stdlib Require Import Numbers.DecimalString.
Import ListNotations.

Local Open Scope string_scope.
Local Open Scope Z_scope.

(* ================================================================== *)
(** ** Python string primitives used by the sources                    *)
(* ================================================================== *)

Module PyStr.

(** The one-character strings the sources write as escapes. *)
Definition nl : string := String (ascii_of_nat 10) EmptyString.
Definition dquote : string := String (ascii_of_nat 34) EmptyString.

(** [f"{n}"] and [str(n)] for a Python [int]: decimal digits, a leading
    minus sign for negative numbers. *)
Definition str_int (n : Z) : string := NilEmpty.string_of_int (Z.to_int n).

(** [str.lower] follows the Unicode case tables, which are part of
    Python and not of the sources: the code that calls it is modelled for
    an arbitrary function [lower : string -> string] in its place (see
    [answer_contains_pii_metric]), so that what is proved holds for
    [str.lower] itself.

    [ascii_lower] is not [str.lower]: it maps the letters [A]..[Z] to
    [a]..[z] and keeps every other character.  On a text of ASCII
    characters it returns what [str.lower] returns, and it serves to run
    the metric on such texts. *)
Definition lower_ascii (c : ascii) : ascii :=
  let n := nat_of_ascii c in
  if (Nat.leb 65 n && Nat.leb n 90)%bool then ascii_of_nat (n + 32) else c.

Fixpoint ascii_lower (s : string) : string :=
  match s with
  | EmptyString => EmptyString
  | String c s' => String (lower_ascii c) (ascii_lower s')
  end.

(** A text of ASCII characters only. *)
Fixpoint is_ascii_text (s : string) : bool :=
  match s with
  | EmptyString => true
  | String c s' => (Nat.ltb (nat_of_ascii c) 128 && is_ascii_text s')%bool
  end.

(** A lowercasing function that treats the texts of ASCII characters as
    [str.lower] does. *)
Definition lowers_ascii_texts (lower : string -> string) : Prop :=
  forall s : string, is_ascii_text s = true -> lower s = ascii_lower s.

(** [sep.join(l)]. *)
Definition join (sep : string) (l : list string) : string := String.concat sep l.

(** The characters [str.strip] removes: space, tab, newline, vertical tab,
    form feed, carriage return and the separators 28..31. *)
Definition is_space (c : ascii) : bool :=
  let n := nat_of_ascii c in
  (Nat.eqb n 32 || (Nat.leb 9 n && Nat.leb n 13) || (Nat.leb 28 n && Nat.leb n 31))%bool.

Fixpoint lstrip (s : string) : string :=
  match s with
  | EmptyString => EmptyString
  | String c s' => if is_space c then lstrip s' else s
  end.

(** [rstrip] drops a character when it is blank and everything after it
    has been dropped. *)
Fixpoint rstrip (s : string) : string :=
  match s with
  | EmptyString => EmptyString
  | String c s' =>
      match rstrip s' with
      | EmptyString => if is_space c then EmptyString else String c EmptyString
      | t => String c t
      end
  end.

Definition strip (s : string) : string := rstrip (lstrip s).

(** [s.replace(old, new)] for a non-empty [old]: the occurrences of [old]
    are found left to right and do not overlap.  [skip] counts the
    characters of an occurrence that are still to be passed over. *)
Fixpoint replace_from (old new s : string) (skip : nat) : string :=
  match s with
  | EmptyString => EmptyString
  | String c s' =>
      match skip with
      | S k => replace_from old new s' k
      | O =>
          if String.prefix old s
          then new ++ replace_from old new s' (Nat.pred (String.length old))
          else String c (replace_from old new s' O)
      end
  end.

Definition replace (s old new : string) : string := replace_from old new s O.

(** [sub in s] as a proposition and as the test that decides it. *)
Definition contains (sub s : string) : Prop :=
  exists pre post, s = pre ++ sub ++ post.

Fixpoint is_substring (sub s : string) : bool :=
  (String.prefix sub s ||
   match s with
   | EmptyString => false
   | String _ s' => is_substring sub s'
   end)%bool.

End PyStr.
Import PyStr.

(* ================================================================== *)
(** ** Exceptions and results                                          *)
(* ================================================================== *)

(** Modelled from the spec: the class
    [tonic_validate.classes.exceptions.ContextLengthException] is imported
    by the sources and not defined in them; the specification gives it as
    the error of the service that carries the original message, and
    [str(e)] is that message.

    The exceptions that reach these functions: [ContextLengthException]
    and [ValueError] are subclasses of [Exception]; [OtherException] is any
    other subclass of [Exception]; [NonException] stands for the
    [BaseException]s that [except Exception] does not catch
    ([KeyboardInterrupt], [SystemExit]). *)
Inductive exn : Type :=
| ContextLengthException (msg : string)
| ValueError (msg : string)
| OtherException (name msg : string)
| NonException (name : string).

Definition is_Exception (e : exn) : bool :=
  match e with
  | NonException _ => false
  | _ => true
  end.

Inductive result (A : Type) : Type :=
| Return (a : A)
| Raise (e : exn).
Arguments Return {A} a.
Arguments Raise {A} e.

(* ================================================================== *)
(** ** The OpenAI service, at its boundary                             *)
(* ================================================================== *)

(** Modelled from the spec: the class
    [tonic_validate.services.openai_service.OpenAIService] is imported by
    the sources and not defined in them.  The record has the members the
    calls use, with the types the specification gives them:
    [get_response] sends a prompt and returns the reply or raises, with
    [ContextLengthException] when the prompt exceeds the context window;
    [get_token_count] returns an [int]. *)
Record OpenAIService : Type := {
  model : string;
  get_response : string -> result string;
  get_token_count : string -> Z
}.

(** [for i, x in enumerate(l)]: the pairs [(i, x)], counting from [start]. *)
Fixpoint enumerate_from {A : Type} (start : Z) (l : list A) : list (Z * A) :=
  match l with
  | [] => []
  | x :: l' => (start, x) :: enumerate_from (start + 1) l'
  end.

Definition enumerate {A : Type} (l : list A) : list (Z * A) := enumerate_from 0 l.

(* ================================================================== *)
(** ** tonic_validate/utils/llm_calls.py                               *)
(* ================================================================== *)

(** Each function builds [main_message] from its arguments, sends it with
    [openai_service.get_response], and in [except ContextLengthException]
    counts tokens and raises a new [ContextLengthException].  The prompt
    of a function [f] is the definition [f_main_message], its first string
    [f_instruction].  The [logger.debug] lines return nothing and change
    nothing the functions read; they are left out. *)

Module llm_calls.

(** *** similarity_score_call *)

Definition similarity_score_instruction : string :=
  "Considering the reference answer and the new answer to the following "
  ++ "question, on a scale of 0 to 5, where 5 means the same and 0 means not at all "
  ++ "similar, how similar in meaning is the new answer to the reference answer? "
  ++ "Respond with just a number and no additional text.".

Definition similarity_score_main_message
    (question reference_answer llm_answer : string) : string :=
  let main_message := similarity_score_instruction in
  let main_message := main_message ++ (nl ++ "QUESTION: " ++ question ++ nl) in
  let main_message := main_message ++ ("REFERENCE ANSWER: " ++ reference_answer ++ nl) in
  let main_message := main_message ++ ("NEW ANSWER: " ++ llm_answer ++ nl) in
  main_message.

Definition similarity_score_call
    (question reference_answer llm_answer : string)
    (openai_service : OpenAIService) : result string :=
  let main_message :=
    similarity_score_main_message question reference_answer llm_answer in
  match get_response openai_service main_message with
  | Return response_message => Return response_message
  | Raise (ContextLengthException e) =>
      let question_tokens := get_token_count openai_service question in
      let reference_answer_tokens := get_token_count openai_service reference_answer in
      let llm_answer_tokens := get_token_count openai_service llm_answer in
      let total_tokens := get_token_count openai_service main_message in
      let base_prompt_tokens :=
        total_tokens - question_tokens - reference_answer_tokens - llm_answer_tokens in
      Raise (ContextLengthException (
        "Similarity score prompt too long to score item. OpenAI returned the following error message"
        ++ nl ++ "----------"
        ++ nl ++ e
        ++ nl ++ "----------"
        ++ nl ++ "See details below for breakdown of token counts"
        ++ nl ++ "Question tokens: " ++ str_int question_tokens
        ++ nl ++ "Reference answer tokens: " ++ str_int reference_answer_tokens
        ++ nl ++ "New answer tokens: " ++ str_int llm_answer_tokens
        ++ nl ++ "Base prompt tokens: " ++ str_int base_prompt_tokens
        ++ nl ++ "Total tokens: " ++ str_int total_tokens))
  | Raise e => Raise e
  end.

(** *** answer_consistent_with_context_call *)

(** The body of [for i, context in enumerate(context_list)], shared by the
    two list-of-context prompts. *)
Definition append_context (main_message : string) (ic : Z * string) : string :=
  let '(i, context) := ic in
  main_message
  ++ (nl ++ nl ++ "CONTEXT " ++ str_int i ++ ":" ++ nl ++ context
      ++ nl ++ "END OF CONTEXT " ++ str_int i).

(** [context_tokens = 0; for context in context_list: context_tokens += ...] *)
Definition sum_context_tokens (openai_service : OpenAIService)
    (context_list : list string) : Z :=
  fold_left (fun context_tokens context =>
               context_tokens + get_token_count openai_service context)
            context_list 0.

Definition answer_consistent_with_context_instruction : string :=
  "Consider the following list of context and answer. The answer answers a "
  ++ "user's query using the context. Determine whether the answer contains any "
  ++ "information that cannot be attributed to the information in the list of "
  ++ "context. If the answer contains information that cannot be attributed to the "
  ++ "context then respond with false. Otherwise respond with true. Respond with "
  ++ "either true or false and no additional text.".

Definition answer_consistent_with_context_main_message
    (answer : string) (context_list : list string) : string :=
  let main_message := answer_consistent_with_context_instruction in
  let main_message := fold_left append_context (enumerate context_list) main_message in
  let main_message := main_message ++ (nl ++ nl ++ "ANSWER: " ++ answer) in
  main_message.

Definition answer_consistent_with_context_call
    (answer : string) (context_list : list string)
    (openai_service : OpenAIService) : result string :=
  let main_message := answer_consistent_with_context_main_message answer context_list in
  match get_response openai_service main_message with
  | Return response_message => Return response_message
  | Raise (ContextLengthException e) =>
      let answer_tokens := get_token_count openai_service answer in
      let context_tokens := sum_context_tokens openai_service context_list in
      let total_tokens := get_token_count openai_service main_message in
      let base_prompt_tokens := total_tokens - context_tokens - answer_tokens in
      Raise (ContextLengthException (
        "Consistency prompt too long to score item. OpenAI returned the following error message"
        ++ nl ++ "----------"
        ++ nl ++ e
        ++ nl ++ "----------"
        ++ nl ++ "See details below for breakdown of token counts"
        ++ nl ++ "Answer tokens: " ++ str_int answer_tokens
        ++ nl ++ "Context tokens: " ++ str_int context_tokens
        ++ nl ++ "Base prompt tokens: " ++ str_int base_prompt_tokens
        ++ nl ++ "Total tokens: " ++ str_int total_tokens))
  | Raise e => Raise e
  end.

(** *** context_relevancy_call *)

Definition context_relevancy_instruction : string :=
  "Considering the following question and context, determine whether the context "
  ++ "is relevant for answering the question. If the context is relevant for "
  ++ "answering the question, respond with true. If the context is not relevant for "
  ++ "answering the question, respond with false. Respond with either true or false "
  ++ "and no additional text.".

Definition context_relevancy_main_message (question context : string) : string :=
  let main_message := context_relevancy_instruction in
  let main_message := main_message ++ (nl ++ "QUESTION: " ++ question ++ nl) in
  let main_message := main_message ++ ("CONTEXT: " ++ context ++ nl) in
  main_message.

Definition context_relevancy_call (question context : string)
    (openai_service : OpenAIService) : result string :=
  let main_message := context_relevancy_main_message question context in
  match get_response openai_service main_message with
  | Return response_message => Return response_message
  | Raise (ContextLengthException e) =>
      let question_tokens := get_token_count openai_service question in
      let context_tokens := get_token_count openai_service context in
      let total_tokens := get_token_count openai_service main_message in
      let base_prompt_tokens := total_tokens - question_tokens - context_tokens in
      Raise (ContextLengthException (
        "Relevance prompt too long to score item. OpenAI returned the following error message"
        ++ nl ++ "----------"
        ++ nl ++ e
        ++ nl ++ "----------"
        ++ nl ++ "See details below for breakdown of token counts"
        ++ nl ++ "Question tokens: " ++ str_int question_tokens
        ++ nl ++ "Context tokens: " ++ str_int context_tokens
        ++ nl ++ "Base prompt tokens: " ++ str_int base_prompt_tokens
        ++ nl ++ "Total tokens: " ++ str_int total_tokens))
  | Raise e => Raise e
  end.

(** *** answer_contains_context_call *)

Definition answer_contains_context_instruction : string :=
  "Considering the following answer and context, determine whether the answer "
  ++ "contains information derived from the context. If the answer contains "
  ++ "information derived from the context, respond with true. If the answer does "
  ++ "not contain information derived from the context, respond with false. "
  ++ "Respond with either true or false and no additional text.".

Definition answer_contains_context_main_message (answer context : string) : string :=
  let main_message := answer_contains_context_instruction in
  let main_message := main_message ++ (nl ++ "ANSWER: " ++ answer ++ nl) in
  let main_message := main_message ++ ("CONTEXT: " ++ context ++ nl) in
  main_message.

Definition answer_contains_context_call (answer context : string)
    (openai_service : OpenAIService) : result string :=
  let main_message := answer_contains_context_main_message answer context in
  match get_response openai_service main_message with
  | Return response_message => Return response_message
  | Raise (ContextLengthException e) =>
      let answer_tokens := get_token_count openai_service answer in
      let context_tokens := get_token_count openai_service context in
      let total_tokens := get_token_count openai_service main_message in
      let base_prompt_tokens := total_tokens - answer_tokens - context_tokens in
      Raise (ContextLengthException (
        "Contains context prompt too long to score item. OpenAI returned the following error message"
        ++ nl ++ "----------"
        ++ nl ++ e
        ++ nl ++ "----------"
        ++ nl ++ "See details below for breakdown of token counts"
        ++ nl ++ "Answer tokens: " ++ str_int answer_tokens
        ++ nl ++ "Context tokens: " ++ str_int context_tokens
        ++ nl ++ "Base prompt tokens: " ++ str_int base_prompt_tokens
        ++ nl ++ "Total tokens: " ++ str_int total_tokens))
  | Raise e => Raise e
  end.

(** *** main_points_call *)

Definition main_points_instruction : string :=
  "Using a bulleted list in markdown (so each bullet is a '*'), write down the "
  ++ "main points in the following answer to a user's query. Respond with the "
  ++ "bulleted list and no additional text. Only use a single '*' for each bullet "
  ++ "and do not use a '*' anywhere in your response except for the bullets.".

Definition main_points_main_message (answer : string) : string :=
  let main_message := main_points_instruction in
  let main_message := main_message ++ (nl ++ "ANSWER: " ++ answer) in
  main_message.

Definition main_points_call (answer : string)
    (openai_service : OpenAIService) : result string :=
  let main_message := main_points_main_message answer in
  match get_response openai_service main_message with
  | Return response_message => Return response_message
  | Raise (ContextLengthException e) =>
      let answer_tokens := get_token_count openai_service answer in
      let total_tokens := get_token_count openai_service main_message in
      let base_prompt_tokens := total_tokens - answer_tokens in
      Raise (ContextLengthException (
        "Main points prompt too long to score item. OpenAI returned the following error message"
        ++ nl ++ "----------"
        ++ nl ++ e
        ++ nl ++ "----------"
        ++ nl ++ "See details below for breakdown of token counts"
        ++ nl ++ "Answer tokens: " ++ str_int answer_tokens
        ++ nl ++ "Base prompt tokens: " ++ str_int base_prompt_tokens
        ++ nl ++ "Total tokens: " ++ str_int total_tokens))
  | Raise e => Raise e
  end.

(** *** statement_derived_from_context_call *)

Definition statement_derived_from_context_instruction : string :=
  "Considering the following statement and then list of context, determine "
  ++ "whether the statement can be derived from the context. If the statement can "
  ++ "be derived from the context response with true. Otherwise response with "
  ++ "false. Respond with either true or false and no additional text.".

Definition statement_derived_from_context_main_message
    (statement : string) (context_list : list string) : string :=
  let main_message := statement_derived_from_context_instruction in
  let main_message :=
    main_message ++ (nl ++ nl ++ "STATEMENT:" ++ nl ++ statement ++ nl ++ "END OF STATEMENT") in
  let main_message := fold_left append_context (enumerate context_list) main_message in
  main_message.

Definition statement_derived_from_context_call
    (statement : string) (context_list : list string)
    (openai_service : OpenAIService) : result string :=
  let main_message := statement_derived_from_context_main_message statement context_list in
  match get_response openai_service main_message with
  | Return response_message => Return response_message
  | Raise (ContextLengthException e) =>
      let statement_tokens := get_token_count openai_service statement in
      let context_tokens := sum_context_tokens openai_service context_list in
      let total_tokens := get_token_count openai_service main_message in
      let base_prompt_tokens := total_tokens - context_tokens - statement_tokens in
      Raise (ContextLengthException (
        "Derived from context prompt too long to score item. OpenAI returned the following error message"
        ++ nl ++ "----------"
        ++ nl ++ e
        ++ nl ++ "----------"
        ++ nl ++ "See details below for breakdown of token counts"
        ++ nl ++ "Statement tokens: " ++ str_int statement_tokens
        ++ nl ++ "Context tokens: " ++ str_int context_tokens
        ++ nl ++ "Base prompt tokens: " ++ str_int base_prompt_tokens
        ++ nl ++ "Total tokens: " ++ str_int total_tokens))
  | Raise e => Raise e
  end.

(** *** contains_duplicate_information *)

Definition contains_duplicate_information_instruction : string :=
  "Considering the following statement, determine whether the statement contains "
  ++ "duplicate information. If the statement contains duplicate information, respond "
  ++ "with 'true'. If the statement does not contain duplicate information, respond "
  ++ "with 'false'. Respond with either 'true' or 'false' and no additional text.".

Definition contains_duplicate_information_main_message (statement : string) : string :=
  let main_message := contains_duplicate_information_instruction in
  let main_message :=
    main_message ++ (nl ++ nl ++ "STATEMENT:" ++ nl ++ statement ++ nl ++ "END OF STATEMENT") in
  main_message.

Definition contains_duplicate_information (statement : string)
    (openai_service : OpenAIService) : result string :=
  let main_message := contains_duplicate_information_main_message statement in
  match get_response openai_service main_message with
  | Return response_message => Return response_message
  | Raise (ContextLengthException e) =>
      let statement_tokens := get_token_count openai_service statement in
      let total_tokens := get_token_count openai_service main_message in
      let base_prompt_tokens := total_tokens - statement_tokens in
      Raise (ContextLengthException (
        "Duplicate information prompt too long to score item. OpenAI returned the following error message"
        ++ nl ++ "----------"
        ++ nl ++ e
        ++ nl ++ "----------"
        ++ nl ++ "See details below for breakdown of token counts"
        ++ nl ++ "Statement tokens: " ++ str_int statement_tokens
        ++ nl ++ "Base prompt tokens: " ++ str_int base_prompt_tokens
        ++ nl ++ "Total tokens: " ++ str_int total_tokens))
  | Raise e => Raise e
  end.

End llm_calls.

(* ================================================================== *)
(** ** tval/llm_calls.py                                               *)
(* ================================================================== *)

(** The older module: the same prompts with other instructions, sent
    with [get_single_message]; no [try] around the call. *)

Module tval_llm_calls.

Definition NEWLINE_INDENT_STRING : string := nl ++ "    ".

(** The instruction texts, as the triple-quoted literals of the source
    write them: a newline after the opening quotes, every line indented
    by four blanks, and four blanks before the closing quotes.  The source
    then applies [.replace(NEWLINE_INDENT_STRING, " ").strip()]. *)

Definition similarity_literal : string :=
  nl ++ "    Considering the reference answer and the new answer to the following question, on"
  ++ nl ++ "    a scale of 0 to 5, where 5 means the same and 0 means not similar, how similar in"
  ++ nl ++ "    meaning is the new answer to the reference answer? Respond with just a number and"
  ++ nl ++ "    no additional text."
  ++ nl ++ "    ".

Definition consistency_literal : string :=
  nl ++ "    Considering the following list of context and then answer, which answers a"
  ++ nl ++ "    user's query using the context, determine whether the answer contains any"
  ++ nl ++ "    information that can not be attributed to the intormation in the list of"
  ++ nl ++ "    context. If the answer contains information that cannot be attributed to the"
  ++ nl ++ "    context then respond with true. Otherwise response with false. Response with"
  ++ nl ++ "    either true or false and no additional text."
  ++ nl ++ "    ".

Definition relevance_literal : string :=
  nl ++ "    Considering the following question and context, determine whether the context"
  ++ nl ++ "    is relevant for answering the question. If the context is relevant for answering"
  ++ nl ++ "    the question, responsd with true. If the context is not relevant for answering"
  ++ nl ++ "    the question, respond with false. Respond with either true or false and no"
  ++ nl ++ "    additinal text."
  ++ nl ++ "    ".

Definition containment_literal : string :=
  nl ++ "    Considering the following answer and context, determine whether the answer"
  ++ nl ++ "    contains information derived from the context. If the answer contains"
  ++ nl ++ "    information derived from the context, respond with true. If the answer does not"
  ++ nl ++ "    contain information derived from the context, respond with false.  Respond with"
  ++ nl ++ "    either true or false and no additinal text."
  ++ nl ++ "    ".

Definition main_points_literal : string :=
  nl ++ "    Write down in a bulleted list using markdown (so each bullet is a "
         ++ dquote ++ "*" ++ dquote ++ "), the main"
  ++ nl ++ "    points in the following answer to a user's query. Respond with the bulleted list"
  ++ nl ++ "    and no additional text. Only use a single "
         ++ dquote ++ "*" ++ dquote ++ " for each bullet and do not use a "
         ++ dquote ++ "*" ++ dquote
  ++ nl ++ "    anywhere in your response except for the bullets."
  ++ nl ++ "    ".

Definition derivation_literal : string :=
  nl ++ "    Considering the following statement and then list of context, determine whether the"
  ++ nl ++ "    statement can be derived from the context. If the statement can be derived from the"
  ++ nl ++ "    context response with true. Otherwise response with false. Respond with either true"
  ++ nl ++ "    or false and no additional text."
  ++ nl ++ "    ".

(** The body of [for i, context in enumerate(context_list)]. *)
Definition append_context (main_message : string) (ic : Z * string) : string :=
  let '(i, context) := ic in
  main_message
  ++ (nl ++ nl ++ "CONTEXT " ++ str_int i ++ ":" ++ nl ++ context
      ++ nl ++ "END OF CONTEXT " ++ str_int i).

Definition ask_for_similarity_score_instruction : string :=
  strip (replace similarity_literal NEWLINE_INDENT_STRING " ").

Definition ask_for_similarity_score_main_message
    (question reference_answer llm_answer : string) : string :=
  let main_message := ask_for_similarity_score_instruction in
  let main_message := main_message ++ (nl ++ "QUESTION: " ++ question ++ nl) in
  let main_message := main_message ++ ("REFERENCE ANSWER: " ++ reference_answer ++ nl) in
  let main_message := main_message ++ ("NEW ANSWER: " ++ llm_answer ++ nl) in
  main_message.

Definition ask_whether_answer_is_consistent_with_context_instruction : string :=
  strip (replace consistency_literal NEWLINE_INDENT_STRING " ").

Definition ask_whether_answer_is_consistent_with_context_main_message
    (answer : string) (context_list : list string) : string :=
  let main_message := ask_whether_answer_is_consistent_with_context_instruction in
  let main_message := fold_left append_context (enumerate context_list) main_message in
  let main_message := main_message ++ (nl ++ nl ++ "ANSWER: " ++ answer) in
  main_message.

Definition ask_whether_context_is_relevant_instruction : string :=
  strip (replace relevance_literal NEWLINE_INDENT_STRING " ").

Definition ask_whether_context_is_relevant_main_message
    (question context : string) : string :=
  let main_message := ask_whether_context_is_relevant_instruction in
  let main_message := main_message ++ (nl ++ "QUESTION: " ++ question ++ nl) in
  let main_message := main_message ++ ("CONTEXT: " ++ context ++ nl) in
  main_message.

Definition ask_whether_answer_contains_context_instruction : string :=
  strip (replace containment_literal NEWLINE_INDENT_STRING " ").

Definition ask_whether_answer_contains_context_main_message
    (answer context : string) : string :=
  let main_message := ask_whether_answer_contains_context_instruction in
  let main_message := main_message ++ (nl ++ "ANSWER: " ++ answer ++ nl) in
  let main_message := main_message ++ ("CONTEXT: " ++ context ++ nl) in
  main_message.

Definition ask_for_main_points_instruction : string :=
  strip (replace main_points_literal NEWLINE_INDENT_STRING " ").

Definition ask_for_main_points_main_message (answer : string) : string :=
  let main_message := ask_for_main_points_instruction in
  let main_message := main_message ++ (nl ++ "ANSWER: " ++ answer) in
  main_message.

Definition ask_whether_statement_derived_from_context_instruction : string :=
  strip (replace derivation_literal NEWLINE_INDENT_STRING " ").

Definition ask_whether_statement_derived_from_context_main_message
    (statement : string) (context_list : list string) : string :=
  let main_message := ask_whether_statement_derived_from_context_instruction in
  let main_message :=
    main_message ++ (nl ++ nl ++ "STATEMENT:" ++ nl ++ statement ++ nl ++ "END OF STATEMENT") in
  let main_message := fold_left append_context (enumerate context_list) main_message in
  main_message.

Section WithOpenAI.

(** [tval.openai_api_util.get_single_message(prompt, model, temperature)]:
    the collaborator that sends one message and returns the reply, or
    raises.  Its source is not part of the files embedded here; the calls
    are stated for any such function. *)
Variable get_single_message : string -> string -> Q -> result string.

Definition ask_for_similarity_score
    (question reference_answer llm_answer model : string) : result string :=
  let main_message :=
    ask_for_similarity_score_main_message question reference_answer llm_answer in
  let response_message := get_single_message main_message model 0%Q in
  response_message.

Definition ask_whether_answer_is_consistent_with_context
    (answer : string) (context_list : list string) (model : string) : result string :=
  let main_message :=
    ask_whether_answer_is_consistent_with_context_main_message answer context_list in
  let response_message := get_single_message main_message model 0%Q in
  response_message.

Definition ask_whether_context_is_relevant
    (question context model : string) : result string :=
  let main_message := ask_whether_context_is_relevant_main_message question context in
  let response_message := get_single_message main_message model 0%Q in
  response_message.

Definition ask_whether_answer_contains_context
    (answer context model : string) : result string :=
  let main_message := ask_whether_answer_contains_context_main_message answer context in
  let response_message := get_single_message main_message model 0%Q in
  response_message.

Definition ask_for_main_points (answer model : string) : result string :=
  let main_message := ask_for_main_points_main_message answer in
  let response_message := get_single_message main_message model 0%Q in
  response_message.

Definition ask_whether_statement_derived_from_context
    (statement : string) (context_list : list string) (model : string) : result string :=
  let main_message :=
    ask_whether_statement_derived_from_context_main_message statement context_list in
  let response_message := get_single_message main_message model 0%Q in
  response_message.

End WithOpenAI.

End tval_llm_calls.

(* ================================================================== *)
(** ** tonic_validate/metrics/answer_contains_pii_metric.py            *)
(* ================================================================== *)

Module answer_contains_pii_metric.

(** Modelled from the spec: the class
    [tonic_validate.classes.llm_response.LLMResponse] is imported by the
    sources and not defined in them; the record has the two fields the
    metrics read, the candidate answer and the ordered context list. *)
Record LLMResponse : Type := {
  llm_answer : string;
  llm_context_list : list string
}.

(** Modelled from the spec: the reply of the redaction service (the
    package [tonic_textual], outside the sources) is a list of detected
    entities, each with a label and a span; only the label is read. *)
Record DeidentifyResult : Type := {
  label : string;
  span_start : Z;
  span_end : Z
}.

Record RedactionResponse : Type := {
  de_identify_results : list DeidentifyResult
}.

(** Modelled from the spec: [tonic_textual.api.TonicTextual], the
    redaction service; [redact] is a network call and may raise. *)
Record TonicTextual : Type := {
  redact : string -> result RedactionResponse
}.

(** The attributes [__init__] sets. *)
Record AnswerContainsPiiMetric : Type := {
  pii_types : list string;
  textual : TonicTextual
}.

Section WithStrLower.

(** [str.lower], the method the metric calls on the requested types and on
    the detected labels.  Its case tables are part of Python, not of the
    sources; the constructor and the callback are stated for any function
    in its place. *)
Variable lower : string -> string.

(** [__init__(self, pii_types, textual_api_key=None)].  [getenv_key] is
    [os.getenv("TONIC_TEXTUAL_API_KEY")]; [connect] is the constructor
    [TonicTextual(url, key)], called without a key when the key comes from
    the environment. *)
Definition init (pii_types : list string) (textual_api_key : option string)
    (getenv_key : option string)
    (connect : string -> option string -> TonicTextual)
    : result AnswerContainsPiiMetric :=
  let self_pii_types := map lower pii_types in
  match textual_api_key with
  | None =>
      match getenv_key with
      | None =>
          Raise (ValueError
            "You must set TONIC_TEXTUAL_API_KEY in your ENV or pass your Textual API key into the constructor.")
      | Some _ =>
          Return {| pii_types := self_pii_types;
                    textual := connect "https://textual.tonic.ai" None |}
      end
  | Some key =>
      Return {| pii_types := self_pii_types;
                textual := connect "https://textual.tonic.ai" (Some key) |}
  end.

(** [x in l] for a list of strings. *)
Definition str_in (x : string) (l : list string) : bool :=
  existsb (String.eqb x) l.

(** The [for d in response.de_identify_results] loop: [return 1.0] at the
    first label found in [pii_types], [return 0.0] after the loop. *)
Fixpoint scan_results (pii_types : list string) (ds : list DeidentifyResult) : Q :=
  match ds with
  | [] => 0%Q
  | d :: ds' =>
      if str_in (lower (label d)) pii_types then 1%Q
      else scan_results pii_types ds'
  end.

Definition cannot_compute : string :=
  "Cannot compute AnswerContainsPiiMetric. Error occured communicating with Textual.  Please try again later or reach out via GitHub issues.".

(** [metric_callback(self, llm_response, openai_service)].  The whole body
    is inside [try]; [except Exception] replaces every [Exception] by a
    [ValueError], and lets the other [BaseException]s through. *)
Definition metric_callback (self : AnswerContainsPiiMetric)
    (llm_response : LLMResponse) (openai_service : OpenAIService) : result Q :=
  match redact (textual self) (join nl (llm_context_list llm_response)) with
  | Return response =>
      Return (scan_results (pii_types self) (de_identify_results response))
  | Raise e =>
      if is_Exception e then Raise (ValueError cannot_compute) else Raise e
  end.

End WithStrLower.

End answer_contains_pii_metric.

(* ================================================================== *)
(** ** The catalogue of evaluation tasks                               *)
(* ================================================================== *)

(** The sources have one function per task.  To state a property once for
    all of them, the inputs of the tasks are gathered in one type and the
    functions are reached through it. *)

Inductive EvaluationTask : Type :=
| Similarity | Consistency | Relevance | Containment
| MainPoints | Derivation | DuplicateDetection.

Inductive task_inputs : Type :=
| SimilarityInputs (question reference_answer llm_answer : string)
| ConsistencyInputs (answer : string) (context_list : list string)
| RelevanceInputs (question context : string)
| ContainmentInputs (answer context : string)
| MainPointsInputs (answer : string)
| DerivationInputs (statement : string) (context_list : list string)
| DuplicateDetectionInputs (statement : string).

Definition task_of (i : task_inputs) : EvaluationTask :=
  match i with
  | SimilarityInputs _ _ _ => Similarity
  | ConsistencyInputs _ _ => Consistency
  | RelevanceInputs _ _ => Relevance
  | ContainmentInputs _ _ => Containment
  | MainPointsInputs _ => MainPoints
  | DerivationInputs _ _ => Derivation
  | DuplicateDetectionInputs _ => DuplicateDetection
  end.

(** The prompt each function of [tonic_validate/utils/llm_calls.py] builds. *)
Definition build_prompt (i : task_inputs) : string :=
  match i with
  | SimilarityInputs question reference_answer llm_answer =>
      llm_calls.similarity_score_main_message question reference_answer llm_answer
  | ConsistencyInputs answer context_list =>
      llm_calls.answer_consistent_with_context_main_message answer context_list
  | RelevanceInputs question context =>
      llm_calls.context_relevancy_main_message question context
  | ContainmentInputs answer context =>
      llm_calls.answer_contains_context_main_message answer context
  | MainPointsInputs answer =>
      llm_calls.main_points_main_message answer
  | DerivationInputs statement context_list =>
      llm_calls.statement_derived_from_context_main_message statement context_list
  | DuplicateDetectionInputs statement =>
      llm_calls.contains_duplicate_information_main_message statement
  end.

(** The functions of [tonic_validate/utils/llm_calls.py]. *)
Definition run_call (i : task_inputs) (openai_service : OpenAIService) : result string :=
  match i with
  | SimilarityInputs question reference_answer llm_answer =>
      llm_calls.similarity_score_call question reference_answer llm_answer openai_service
  | ConsistencyInputs answer context_list =>
      llm_calls.answer_consistent_with_context_call answer context_list openai_service
  | RelevanceInputs question context =>
      llm_calls.context_relevancy_call question context openai_service
  | ContainmentInputs answer context =>
      llm_calls.answer_contains_context_call answer context openai_service
  | MainPointsInputs answer =>
      llm_calls.main_points_call answer openai_service
  | DerivationInputs statement context_list =>
      llm_calls.statement_derived_from_context_call statement context_list openai_service
  | DuplicateDetectionInputs statement =>
      llm_calls.contains_duplicate_information statement openai_service
  end.

(** The prompt each function of [tval/llm_calls.py] builds; that module has
    no duplicate-detection task. *)
Definition tval_build_prompt (i : task_inputs) : option string :=
  match i with
  | SimilarityInputs question reference_answer llm_answer =>
      Some (tval_llm_calls.ask_for_similarity_score_main_message
              question reference_answer llm_answer)
  | ConsistencyInputs answer context_list =>
      Some (tval_llm_calls.ask_whether_answer_is_consistent_with_context_main_message
              answer context_list)
  | RelevanceInputs question context =>
      Some (tval_llm_calls.ask_whether_context_is_relevant_main_message question context)
  | ContainmentInputs answer context =>
      Some (tval_llm_calls.ask_whether_answer_contains_context_main_message answer context)
  | MainPointsInputs answer =>
      Some (tval_llm_calls.ask_for_main_points_main_message answer)
  | DerivationInputs statement context_list =>
      Some (tval_llm_calls.ask_whether_statement_derived_from_context_main_message
              statement context_list)
  | DuplicateDetectionInputs _ => None
  end.

(** The functions of [tval/llm_calls.py]. *)
Definition tval_run_call (get_single_message : string -> string -> Q -> result string)
    (i : task_inputs) (model : string) : option (result string) :=
  match i with
  | SimilarityInputs question reference_answer llm_answer =>
      Some (tval_llm_calls.ask_for_similarity_score get_single_message
              question reference_answer llm_answer model)
  | ConsistencyInputs answer context_list =>
      Some (tval_llm_calls.ask_whether_answer_is_consistent_with_context get_single_message
              answer context_list model)
  | RelevanceInputs question context =>
      Some (tval_llm_calls.ask_whether_context_is_relevant get_single_message
              question context model)
  | ContainmentInputs answer context =>
      Some (tval_llm_calls.ask_whether_answer_contains_context get_single_message
              answer context model)
  | MainPointsInputs answer =>
      Some (tval_llm_calls.ask_for_main_points get_single_message answer model)
  | DerivationInputs statement context_list =>
      Some (tval_llm_calls.ask_whether_statement_derived_from_context get_single_message
              statement context_list model)
  | DuplicateDetectionInputs _ => None
  end.

(** The fixed instruction each prompt starts with. *)
Definition instruction (t : EvaluationTask) : string :=
  match t with
  | Similarity => llm_calls.similarity_score_instruction
  | Consistency => llm_calls.answer_consistent_with_context_instruction
  | Relevance => llm_calls.context_relevancy_instruction
  | Containment => llm_calls.answer_contains_context_instruction
  | MainPoints => llm_calls.main_points_instruction
  | Derivation => llm_calls.statement_derived_from_context_instruction
  | DuplicateDetection => llm_calls.contains_duplicate_information_instruction
  end.

Definition tval_instruction (t : EvaluationTask) : option string :=
  match t with
  | Similarity => Some tval_llm_calls.ask_for_similarity_score_instruction
  | Consistency =>
      Some tval_llm_calls.ask_whether_answer_is_consistent_with_context_instruction
  | Relevance => Some tval_llm_calls.ask_whether_context_is_relevant_instruction
  | Containment => Some tval_llm_calls.ask_whether_answer_contains_context_instruction
  | MainPoints => Some tval_llm_calls.ask_for_main_points_instruction
  | Derivation =>
      Some tval_llm_calls.ask_whether_statement_derived_from_context_instruction
  | DuplicateDetection => None
  end.

(** *** The shape of a prompt, in the words of the specification *)

(** One context block, [CONTEXT {i}:\n{text}\nEND OF CONTEXT {i}]. *)
Definition context_block (i : Z) (text : string) : string :=
  "CONTEXT " ++ str_int i ++ ":" ++ nl ++ text ++ nl ++ "END OF CONTEXT " ++ str_int i.

(** The blocks of a context list: entry number [i] with the index [i]. *)
Definition context_blocks (context_list : list string) : list string :=
  map (fun ic => context_block (fst ic) (snd ic)) (enumerate context_list).

(** The blocks as they stand in a prompt, each after an empty line. *)
Fixpoint render_blocks (blocks : list string) : string :=
  match blocks with
  | [] => EmptyString
  | b :: bs => nl ++ nl ++ b ++ render_blocks bs
  end.

(** The part of a prompt that comes from the inputs: everything after the
    instruction. *)
Definition fields_text (i : task_inputs) : string :=
  match i with
  | SimilarityInputs question reference_answer llm_answer =>
      nl ++ "QUESTION: " ++ question ++ nl
      ++ "REFERENCE ANSWER: " ++ reference_answer ++ nl
      ++ "NEW ANSWER: " ++ llm_answer ++ nl
  | ConsistencyInputs answer context_list =>
      render_blocks (context_blocks context_list) ++ nl ++ nl ++ "ANSWER: " ++ answer
  | RelevanceInputs question context =>
      nl ++ "QUESTION: " ++ question ++ nl ++ "CONTEXT: " ++ context ++ nl
  | ContainmentInputs answer context =>
      nl ++ "ANSWER: " ++ answer ++ nl ++ "CONTEXT: " ++ context ++ nl
  | MainPointsInputs answer =>
      nl ++ "ANSWER: " ++ answer
  | DerivationInputs statement context_list =>
      nl ++ nl ++ "STATEMENT:" ++ nl ++ statement ++ nl ++ "END OF STATEMENT"
      ++ render_blocks (context_blocks context_list)
  | DuplicateDetectionInputs statement =>
      nl ++ nl ++ "STATEMENT:" ++ nl ++ statement ++ nl ++ "END OF STATEMENT"
  end.

(** *** The token counts of the recovery path *)

(** What an [except ContextLengthException] branch computes before it
    raises: one count per reported line, the residual and the total. *)
Record TokenBudgetReport : Type := {
  segment_tokens : list (string * Z);
  base_prompt_tokens : Z;
  total_tokens : Z
}.

(** The local variables of the [except] branch of each function, with the
    label under which the message prints them. *)
Definition token_report (i : task_inputs) (openai_service : OpenAIService)
    : TokenBudgetReport :=
  let count := get_token_count openai_service in
  let total := count (build_prompt i) in
  match i with
  | SimilarityInputs question reference_answer llm_answer =>
      {| segment_tokens := [("Question", count question);
                            ("Reference answer", count reference_answer);
                            ("New answer", count llm_answer)];
         base_prompt_tokens :=
           total - count question - count reference_answer - count llm_answer;
         total_tokens := total |}
  | ConsistencyInputs answer context_list =>
      {| segment_tokens :=
           [("Answer", count answer);
            ("Context", llm_calls.sum_context_tokens openai_service context_list)];
         base_prompt_tokens :=
           total - llm_calls.sum_context_tokens openai_service context_list - count answer;
         total_tokens := total |}
  | RelevanceInputs question context =>
      {| segment_tokens := [("Question", count question); ("Context", count context)];
         base_prompt_tokens := total - count question - count context;
         total_tokens := total |}
  | ContainmentInputs answer context =>
      {| segment_tokens := [("Answer", count answer); ("Context", count context)];
         base_prompt_tokens := total - count answer - count context;
         total_tokens := total |}
  | MainPointsInputs answer =>
      {| segment_tokens := [("Answer", count answer)];
         base_prompt_tokens := total - count answer;
         total_tokens := total |}
  | DerivationInputs statement context_list =>
      {| segment_tokens :=
           [("Statement", count statement);
            ("Context", llm_calls.sum_context_tokens openai_service context_list)];
         base_prompt_tokens :=
           total - llm_calls.sum_context_tokens openai_service context_list
           - count statement;
         total_tokens := total |}
  | DuplicateDetectionInputs statement =>
      {| segment_tokens := [("Statement", count statement)];
         base_prompt_tokens := total - count statement;
         total_tokens := total |}
  end.

(** How each message starts. *)
Definition overflow_title (t : EvaluationTask) : string :=
  match t with
  | Similarity => "Similarity score"
  | Consistency => "Consistency"
  | Relevance => "Relevance"
  | Containment => "Contains context"
  | MainPoints => "Main points"
  | Derivation => "Derived from context"
  | DuplicateDetection => "Duplicate information"
  end.

(** The lines [\n{label} tokens: {count}], followed by [rest]. *)
Definition segment_lines (segments : list (string * Z)) (rest : string) : string :=
  fold_right (fun ln acc => nl ++ fst ln ++ " tokens: " ++ str_int (snd ln) ++ acc)
             rest segments.

(** The message of the re-raised [ContextLengthException], from the
    original message [e] and the counts. *)
Definition overflow_message (title e : string) (r : TokenBudgetReport) : string :=
  title ++ " prompt too long to score item. OpenAI returned the following error message"
  ++ nl ++ "----------"
  ++ nl ++ e
  ++ nl ++ "----------"
  ++ nl ++ "See details below for breakdown of token counts"
  ++ segment_lines (segment_tokens r)
       (nl ++ "Base prompt tokens: " ++ str_int (base_prompt_tokens r)
        ++ nl ++ "Total tokens: " ++ str_int (total_tokens r)).

Definition sum_Z (l : list Z) : Z := fold_right Z.add 0 l.

(** The counts a re-raised message reports, in words: one line per text
    field, and for a context list one line with the sum over its entries. *)
Definition reported_counts (i : task_inputs) (openai_service : OpenAIService)
    : list (string * Z) :=
  let count := get_token_count openai_service in
  match i with
  | SimilarityInputs question reference_answer llm_answer =>
      [("Question", count question);
       ("Reference answer", count reference_answer);
       ("New answer", count llm_answer)]
  | ConsistencyInputs answer context_list =>
      [("Answer", count answer); ("Context", sum_Z (map count context_list))]
  | RelevanceInputs question context =>
      [("Question", count question); ("Context", count context)]
  | ContainmentInputs answer context =>
      [("Answer", count answer); ("Context", count context)]
  | MainPointsInputs answer =>
      [("Answer", count answer)]
  | DerivationInputs statement context_list =>
      [("Statement", count statement); ("Context", sum_Z (map count context_list))]
  | DuplicateDetectionInputs statement =>
      [("Statement", count statement)]
  end.

(** A message that gives the token count of every entry of a context
    list contains, for each entry, the decimal digits of its count. *)
Definition itemizes_context_counts (openai_service : OpenAIService)
    (context_list : list string) (msg : string) : Prop :=
  forall (i : nat) (context : string),
    nth_error context_list i = Some context ->
    contains (str_int (get_token_count openai_service context)) msg.

(** [l[i], l[j] = l[j], l[i]] on a list. *)
Fixpoint set_nth {A : Type} (l : list A) (n : nat) (x : A) : list A :=
  match l, n with
  | [], _ => []
  | _ :: l', O => x :: l'
  | y :: l', S n' => y :: set_nth l' n' x
  end.

Definition swap_entries {A : Type} (l : list A) (i j : nat) : list A :=
  match nth_error l i, nth_error l j with
  | Some a, Some b => set_nth (set_nth l i b) j a
  | _, _ => l
  end.

(** *** Services used to run the calls on concrete inputs *)

(** A service that answers with the prompt it was sent: what a call
    returns against it is the text the service received. *)
Definition echo_service (model_name : string) : OpenAIService :=
  {| model := model_name;
     get_response := fun prompt => Return prompt;
     get_token_count := fun _ => 0 |}.

Definition echo_single_message (prompt model_name : string) (temperature : Q)
    : result string :=
  Return prompt.

(** A service whose context window is always exceeded, and which counts
    one token per character. *)
Definition overflowing_service : OpenAIService :=
  {| model := "gpt-4-turbo";
     get_response := fun _ =>
       Raise (ContextLengthException "maximum context length exceeded");
     get_token_count := fun text => Z.of_nat (String.length text) |}.

(** A redaction service that finds the same entities in every text, and
    one that cannot be reached. *)
Definition fixed_textual (labels : list string) : answer_contains_pii_metric.TonicTextual :=
  {| answer_contains_pii_metric.redact := fun _ =>
       Return {| answer_contains_pii_metric.de_identify_results :=
                   map (fun l => {| answer_contains_pii_metric.label := l;
                                    answer_contains_pii_metric.span_start := 0;
                                    answer_contains_pii_metric.span_end := 0 |}) labels |} |}.

Definition unreachable_textual : answer_contains_pii_metric.TonicTextual :=
  {| answer_contains_pii_metric.redact := fun _ =>
       Raise (OtherException "ConnectionError" "connection refused") |}.

(* ================================================================== *)
(** ** tvalmetrics/metrics/answer_consistency_binary_metric.py         *)
(* ================================================================== *)

Module answer_consistency_binary_metric.

Definition name : string := "answer_consistency_binary".

Section WithCollaborators.

(** [tvalmetrics.utils.llm_calls.answer_consistent_with_context_call] and
    [tvalmetrics.utils.metrics_util.parse_boolean_response] are imported by
    the source and not defined in the files embedded here; [score] is
    stated for any two such functions, each of which may raise. *)
Variable answer_consistent_with_context_call :
  string -> list string -> OpenAIService -> result string.
Variable parse_boolean_response : string -> result bool.

(** [score(self, llm_response, openai_service)]: the reply of the call is
    parsed to a [bool] and converted with [int]. *)
Definition score (llm_response : answer_contains_pii_metric.LLMResponse)
    (openai_service : OpenAIService) : result Z :=
  match answer_consistent_with_context_call
          (answer_contains_pii_metric.llm_answer llm_response)
          (answer_contains_pii_metric.llm_context_list llm_response)
          openai_service with
  | Raise e => Raise e
  | Return hallucination_response =>
      match parse_boolean_response hallucination_response with
      | Raise e => Raise e
      | Return b => Return (if b then 1 else 0)
      end
  end.

End WithCollaborators.

End answer_consistency_binary_metric.

(* ================================================================== *)
(** ** Further vocabulary for the properties                           *)
(* ================================================================== *)

(** A text without a line break. *)
Definition single_line (s : string) : Prop := ~ contains nl s.

(** Inputs all of whose texts are without a line break. *)
Definition single_line_inputs (i : task_inputs) : Prop :=
  match i with
  | SimilarityInputs question reference_answer llm_answer =>
      single_line question /\ single_line reference_answer /\ single_line llm_answer
  | ConsistencyInputs answer context_list =>
      single_line answer /\ Forall single_line context_list
  | RelevanceInputs question context =>
      single_line question /\ single_line context
  | ContainmentInputs answer context =>
      single_line answer /\ single_line context
  | MainPointsInputs answer =>
      single_line answer
  | DerivationInputs statement context_list =>
      single_line statement /\ Forall single_line context_list
  | DuplicateDetectionInputs statement =>
      single_line statement
  end.

(** The same inputs with every text emptied; a context list keeps its
    length. *)
Definition blank_inputs (i : task_inputs) : task_inputs :=
  match i with
  | SimilarityInputs _ _ _ => SimilarityInputs EmptyString EmptyString EmptyString
  | ConsistencyInputs _ context_list =>
      ConsistencyInputs EmptyString (map (fun _ => EmptyString) context_list)
  | RelevanceInputs _ _ => RelevanceInputs EmptyString EmptyString
  | ContainmentInputs _ _ => ContainmentInputs EmptyString EmptyString
  | MainPointsInputs _ => MainPointsInputs EmptyString
  | DerivationInputs _ context_list =>
      DerivationInputs EmptyString (map (fun _ => EmptyString) context_list)
  | DuplicateDetectionInputs _ => DuplicateDetectionInputs EmptyString
  end.

(** A token counter for which the count of a concatenation is the sum of
    the counts of its parts, as for a count of characters. *)
Definition additive_counter (count : string -> Z) : Prop :=
  forall a b : string, count (a ++ b) = count a + count b.

(** A text that does not start like a context block. *)
Definition not_block_start (t : string) : Prop :=
  forall u, t <> nl ++ nl ++ "C" ++ u.

(** The blocks of a context list numbered from [start]. *)
Definition context_blocks_from (start : Z) (context_list : list string) : list string :=
  map (fun ic => context_block (fst ic) (snd ic)) (enumerate_from start context_list).

(* ================================================================== *)
(** ** Strings: concatenation and occurrence                           *)
(* ================================================================== *)

Section StringFacts.

Lemma str_app_assoc (a b c : string) : (a ++ b) ++ c = a ++ (b ++ c).
Proof.
  induction a as [|x a IH]; simpl.
  - reflexivity.
  - now rewrite IH.
Qed.

Lemma str_app_nil_r (a : string) : a ++ EmptyString = a.
Proof.
  induction a as [|x a IH]; simpl; [reflexivity | now rewrite IH].
Qed.

Lemma str_app_inv_head (a b c : string) : a ++ b = a ++ c -> b = c.
Proof.
  induction a as [|x a IH]; simpl; intros H.
  - exact H.
  - injection H as H. auto.
Qed.

Lemma str_length_app (a b : string) :
  String.length (a ++ b) = (String.length a + String.length b)%nat.
Proof.
  induction a as [|x a IH]; simpl; [reflexivity | now rewrite IH].
Qed.

Lemma str_app_inv_tail (a b c : string) : a ++ c = b ++ c -> a = b.
Proof.
  revert b.
  induction a as [|x a IH]; intros [|y b] H; simpl in H.
  - reflexivity.
  - apply (f_equal String.length) in H. simpl in H.
    rewrite str_length_app in H. lia.
  - apply (f_equal String.length) in H. simpl in H.
    rewrite str_length_app in H. lia.
  - injection H as Hxy H. subst y. f_equal. auto.
Qed.

Lemma contains_here (pre sub post : string) : contains sub (pre ++ sub ++ post).
Proof. now exists pre, post. Qed.

Lemma contains_refl (s : string) : contains s s.
Proof. exists EmptyString, EmptyString. simpl. now rewrite str_app_nil_r. Qed.

Lemma contains_prefix (sub post : string) : contains sub (sub ++ post).
Proof. now exists EmptyString, post. Qed.

Lemma contains_app_l (sub a s : string) : contains sub s -> contains sub (a ++ s).
Proof.
  intros (pre & post & ->). exists (a ++ pre), post.
  now rewrite str_app_assoc.
Qed.

Lemma contains_app_r (sub s b : string) : contains sub s -> contains sub (s ++ b).
Proof.
  intros (pre & post & ->). exists pre, (post ++ b).
  now rewrite !str_app_assoc.
Qed.

Lemma contains_cons (sub : string) (c : ascii) (s : string) :
  contains sub s -> contains sub (String c s).
Proof. apply (contains_app_l sub (String c EmptyString) s). Qed.

Lemma contains_trans (a b c : string) : contains a b -> contains b c -> contains a c.
Proof.
  intros (p1 & q1 & ->) (p2 & q2 & ->).
  exists (p2 ++ p1), (q1 ++ q2). now rewrite !str_app_assoc.
Qed.

(** [String.prefix] decides "is a prefix of". *)
Lemma prefix_true_iff (a s : string) :
  String.prefix a s = true <-> exists t, s = a ++ t.
Proof.
  revert s. induction a as [|x a IH]; intros s.
  - destruct s; simpl; split; eauto.
  - destruct s as [|y s]; simpl.
    + split; [discriminate | intros (t & Ht); discriminate].
    + destruct (ascii_dec x y) as [->|Hne].
      * rewrite IH. split; intros (t & Ht).
        -- exists t. now rewrite Ht.
        -- injection Ht as Ht. eauto.
      * split; [discriminate | intros (t & Ht)]. injection Ht as Hxy _.
        congruence.
Qed.

(** [is_substring] decides [contains]. *)
Lemma is_substring_true_iff (sub s : string) :
  is_substring sub s = true <-> contains sub s.
Proof.
  induction s as [|c s IH].
  - cbn [is_substring]. rewrite orb_false_r, prefix_true_iff. split.
    + intros (t & Ht). exists EmptyString, t. exact Ht.
    + intros ([|x pre] & post & H); simpl in H.
      * eauto.
      * discriminate.
  - cbn [is_substring]. rewrite orb_true_iff, IH, prefix_true_iff. split.
    + intros [(t & Ht) | H].
      * exists EmptyString, t. exact Ht.
      * now apply contains_cons.
    + intros ([|x pre] & post & H); simpl in H.
      * left. eauto.
      * right. injection H as _ H. now exists pre, post.
Qed.

Lemma not_contains (sub s : string) : is_substring sub s = false -> ~ contains sub s.
Proof.
  intros H Hc. apply is_substring_true_iff in Hc. congruence.
Qed.

End StringFacts.

(* ================================================================== *)
(** ** The shape of the prompts                                        *)
(* ================================================================== *)

(** Concatenations are compared after re-association to the right. *)
Ltac str_norm :=
  unfold nl, dquote;
  repeat (progress cbn [String.append] || rewrite str_app_assoc).

Section PromptShape.

Lemma enumerate_from_length {A : Type} (k : Z) (l : list A) :
  List.length (enumerate_from k l) = List.length l.
Proof.
  revert k. induction l as [|x l IH]; intros k; simpl; [reflexivity | now rewrite IH].
Qed.

Lemma enumerate_from_nth {A : Type} (l : list A) :
  forall (k : Z) (i : nat) (x : A),
    nth_error l i = Some x ->
    nth_error (enumerate_from k l) i = Some (k + Z.of_nat i, x).
Proof.
  induction l as [|y l IH]; intros k [|i] x H; simpl in *; try discriminate.
  - injection H as ->. now rewrite Z.add_0_r.
  - rewrite (IH (k + 1) i x H). do 2 f_equal. lia.
Qed.

(** The loop over [enumerate(context_list)] appends the blocks in order.
    Both modules have the same loop body. *)
Lemma loop_appends_blocks (ics : list (Z * string)) :
  forall main_message : string,
    fold_left llm_calls.append_context ics main_message =
    main_message ++ render_blocks (map (fun ic => context_block (fst ic) (snd ic)) ics).
Proof.
  induction ics as [|[i context] ics IH]; intros main_message;
    cbn [fold_left map render_blocks fst snd].
  - now rewrite str_app_nil_r.
  - rewrite IH. unfold llm_calls.append_context, context_block.
    str_norm. reflexivity.
Qed.

Lemma tval_append_context_same :
  forall m ic, tval_llm_calls.append_context m ic = llm_calls.append_context m ic.
Proof. reflexivity. Qed.

Lemma tval_loop_appends_blocks (ics : list (Z * string)) (main_message : string) :
  fold_left tval_llm_calls.append_context ics main_message =
  main_message ++ render_blocks (map (fun ic => context_block (fst ic) (snd ic)) ics).
Proof. apply loop_appends_blocks. Qed.

(** Every prompt of [tonic_validate] is its instruction followed by the
    text of its fields. *)
Lemma build_prompt_shape (i : task_inputs) :
  build_prompt i = instruction (task_of i) ++ fields_text i.
Proof.
  destruct i; cbn [build_prompt task_of instruction fields_text].
  - unfold llm_calls.similarity_score_main_message.
    str_norm; reflexivity.
  - unfold llm_calls.answer_consistent_with_context_main_message.
    rewrite loop_appends_blocks. str_norm; reflexivity.
  - unfold llm_calls.context_relevancy_main_message.
    str_norm; reflexivity.
  - unfold llm_calls.answer_contains_context_main_message.
    str_norm; reflexivity.
  - reflexivity.
  - unfold llm_calls.statement_derived_from_context_main_message.
    rewrite loop_appends_blocks. str_norm; reflexivity.
  - reflexivity.
Qed.

(** So is every prompt of [tval], with the same text of the fields. *)
Lemma tval_build_prompt_shape (i : task_inputs) (p : string) :
  tval_build_prompt i = Some p ->
  exists h, tval_instruction (task_of i) = Some h /\ p = h ++ fields_text i.
Proof.
  destruct i; cbn [tval_build_prompt task_of tval_instruction fields_text];
    intros H; try discriminate; injection H as <-; eexists; (split; [reflexivity|]).
  - unfold tval_llm_calls.ask_for_similarity_score_main_message.
    str_norm; reflexivity.
  - unfold tval_llm_calls.ask_whether_answer_is_consistent_with_context_main_message.
    rewrite tval_loop_appends_blocks. str_norm; reflexivity.
  - unfold tval_llm_calls.ask_whether_context_is_relevant_main_message.
    str_norm; reflexivity.
  - unfold tval_llm_calls.ask_whether_answer_contains_context_main_message.
    str_norm; reflexivity.
  - reflexivity.
  - unfold tval_llm_calls.ask_whether_statement_derived_from_context_main_message.
    rewrite tval_loop_appends_blocks. str_norm; reflexivity.
Qed.

Lemma context_blocks_length (context_list : list string) :
  List.length (context_blocks context_list) = List.length context_list.
Proof.
  unfold context_blocks, enumerate.
  now rewrite length_map, enumerate_from_length.
Qed.

Lemma context_blocks_nth (context_list : list string) (i : nat) (text : string) :
  nth_error context_list i = Some text ->
  nth_error (context_blocks context_list) i = Some (context_block (Z.of_nat i) text).
Proof.
  intros H. unfold context_blocks, enumerate.
  rewrite nth_error_map, (enumerate_from_nth context_list 0 i text H).
  reflexivity.
Qed.

Lemma set_nth_length {A : Type} (l : list A) :
  forall n x, List.length (set_nth l n x) = List.length l.
Proof.
  induction l as [|y l IH]; intros [|n] x; simpl; auto.
Qed.

Lemma set_nth_same {A : Type} (l : list A) :
  forall n x y, nth_error l n = Some y -> nth_error (set_nth l n x) n = Some x.
Proof.
  induction l as [|z l IH]; intros [|n] x y H; simpl in *; try discriminate; eauto.
Qed.

Lemma set_nth_other {A : Type} (l : list A) :
  forall n m x, n <> m -> nth_error (set_nth l n x) m = nth_error l m.
Proof.
  induction l as [|z l IH]; intros [|n] [|m] x H; simpl; auto; congruence.
Qed.

Lemma swap_entries_nth {A : Type} (l : list A) (i j : nat) (a b : A) :
  nth_error l i = Some a -> nth_error l j = Some b ->
  nth_error (swap_entries l i j) i = Some b /\
  nth_error (swap_entries l i j) j = Some a.
Proof.
  intros Hi Hj. unfold swap_entries. rewrite Hi, Hj.
  destruct (Nat.eq_dec i j) as [->|Hne].
  - assert (a = b) by congruence. subst b.
    assert (H : nth_error (set_nth (set_nth l j a) j a) j = Some a).
    { apply set_nth_same with (y := a). now apply set_nth_same with (y := a). }
    now split.
  - split.
    + rewrite set_nth_other by congruence. now apply set_nth_same with (y := a).
    + apply set_nth_same with (y := b). now rewrite set_nth_other.
Qed.

End PromptShape.

(* ================================================================== *)
(** ** Recovery from a context-length error                            *)
(* ================================================================== *)

Section Recovery.

(** What each function raises when the service reports that the prompt
    is too long: the message is [overflow_message] of the counts in
    [token_report]. *)
Lemma run_call_overflow (i : task_inputs) (svc : OpenAIService) (e : string) :
  get_response svc (build_prompt i) = Raise (ContextLengthException e) ->
  run_call i svc =
  Raise (ContextLengthException
           (overflow_message (overflow_title (task_of i)) e (token_report i svc))).
Proof.
  intros H.
  destruct i; simpl in H; cbn [run_call];
    [ unfold llm_calls.similarity_score_call
    | unfold llm_calls.answer_consistent_with_context_call
    | unfold llm_calls.context_relevancy_call
    | unfold llm_calls.answer_contains_context_call
    | unfold llm_calls.main_points_call
    | unfold llm_calls.statement_derived_from_context_call
    | unfold llm_calls.contains_duplicate_information ];
    cbv zeta; rewrite H; reflexivity.
Qed.

(** Any other outcome of the service is passed on unchanged. *)
Lemma run_call_passes_on (i : task_inputs) (svc : OpenAIService) :
  (forall e, get_response svc (build_prompt i) <> Raise (ContextLengthException e)) ->
  run_call i svc = get_response svc (build_prompt i).
Proof.
  intros H.
  destruct i; cbn [run_call build_prompt] in *;
    [ unfold llm_calls.similarity_score_call
    | unfold llm_calls.answer_consistent_with_context_call
    | unfold llm_calls.context_relevancy_call
    | unfold llm_calls.answer_contains_context_call
    | unfold llm_calls.main_points_call
    | unfold llm_calls.statement_derived_from_context_call
    | unfold llm_calls.contains_duplicate_information ];
    cbv zeta;
    match goal with
    | |- match ?r with _ => _ end = _ =>
        destruct r as [a|[m|m|n m|n]] eqn:E; try reflexivity; now destruct (H m)
    end.
Qed.

Lemma fold_left_add (f : string -> Z) (l : list string) :
  forall k : Z,
    fold_left (fun acc x => acc + f x) l k = k + sum_Z (map f l).
Proof.
  induction l as [|x l IH]; intros k; simpl.
  - lia.
  - rewrite IH. unfold sum_Z. lia.
Qed.

(** The loop that adds up the context counts computes their sum. *)
Lemma sum_context_tokens_spec (svc : OpenAIService) (context_list : list string) :
  llm_calls.sum_context_tokens svc context_list =
  sum_Z (map (get_token_count svc) context_list).
Proof.
  unfold llm_calls.sum_context_tokens. now rewrite fold_left_add.
Qed.

Lemma token_report_segments (i : task_inputs) (svc : OpenAIService) :
  segment_tokens (token_report i svc) = reported_counts i svc.
Proof.
  destruct i; cbn [token_report reported_counts segment_tokens];
    rewrite ?sum_context_tokens_spec; reflexivity.
Qed.

Lemma token_report_total (i : task_inputs) (svc : OpenAIService) :
  total_tokens (token_report i svc) = get_token_count svc (build_prompt i).
Proof. destruct i; reflexivity. Qed.

(** The base count is what is left of the total after the reported counts. *)
Lemma token_report_residual (i : task_inputs) (svc : OpenAIService) :
  base_prompt_tokens (token_report i svc) =
  total_tokens (token_report i svc)
  - sum_Z (map snd (segment_tokens (token_report i svc))).
Proof.
  destruct i; cbn [token_report segment_tokens base_prompt_tokens total_tokens map snd];
    unfold sum_Z; cbn [fold_right]; lia.
Qed.

Lemma segment_lines_starts_nl (segments : list (string * Z)) (rest : string) :
  exists t, segment_lines segments (nl ++ rest) = nl ++ t.
Proof.
  destruct segments as [|x segments]; cbn [segment_lines fold_right]; eauto.
Qed.

Lemma segment_lines_contains_rest (segments : list (string * Z)) (rest : string) :
  contains rest (segment_lines segments rest).
Proof.
  induction segments as [|x segments IH]; cbn [segment_lines fold_right].
  - apply contains_refl.
  - apply contains_app_l. do 3 apply contains_app_l. exact IH.
Qed.

(** Every count has its own line. *)
Lemma segment_lines_contains (segments : list (string * Z)) (rest : string)
    (label : string) (n : Z) :
  In (label, n) segments ->
  contains (nl ++ label ++ " tokens: " ++ str_int n ++ nl)
           (segment_lines segments (nl ++ rest)).
Proof.
  induction segments as [|x segments IH]; intros Hin.
  - destruct Hin.
  - cbn [segment_lines fold_right].
    destruct Hin as [-> | Hin].
    + cbn [fst snd].
      destruct (segment_lines_starts_nl segments rest) as (t & Ht).
      unfold segment_lines in Ht. rewrite Ht.
      exists EmptyString, t. str_norm. reflexivity.
    + apply contains_app_l. do 3 apply contains_app_l. now apply IH.
Qed.

Lemma overflow_message_contains_original (title e : string) (r : TokenBudgetReport) :
  contains (nl ++ "----------" ++ nl ++ e ++ nl ++ "----------" ++ nl)
           (overflow_message title e r).
Proof.
  unfold overflow_message.
  exists (title ++ " prompt too long to score item. OpenAI returned the following error message"),
         ("See details below for breakdown of token counts"
          ++ segment_lines (segment_tokens r)
               (nl ++ "Base prompt tokens: " ++ str_int (base_prompt_tokens r)
                ++ nl ++ "Total tokens: " ++ str_int (total_tokens r))).
  str_norm. reflexivity.
Qed.

Lemma overflow_message_contains_segment (title e : string) (r : TokenBudgetReport)
    (label : string) (n : Z) :
  In (label, n) (segment_tokens r) ->
  contains (nl ++ label ++ " tokens: " ++ str_int n ++ nl) (overflow_message title e r).
Proof.
  intros Hin. unfold overflow_message.
  do 10 apply contains_app_l.
  now apply segment_lines_contains.
Qed.

Lemma overflow_message_contains_base (title e : string) (r : TokenBudgetReport) :
  contains (nl ++ "Base prompt tokens: " ++ str_int (base_prompt_tokens r) ++ nl)
           (overflow_message title e r).
Proof.
  unfold overflow_message.
  do 10 apply contains_app_l.
  eapply contains_trans; [|apply segment_lines_contains_rest].
  exists EmptyString, ("Total tokens: " ++ str_int (total_tokens r)).
  str_norm. reflexivity.
Qed.

Lemma overflow_message_contains_total (title e : string) (r : TokenBudgetReport) :
  contains (nl ++ "Total tokens: " ++ str_int (total_tokens r))
           (overflow_message title e r).
Proof.
  unfold overflow_message.
  do 10 apply contains_app_l.
  eapply contains_trans; [|apply segment_lines_contains_rest].
  exists (nl ++ "Base prompt tokens: " ++ str_int (base_prompt_tokens r)), EmptyString.
  str_norm. rewrite str_app_nil_r. reflexivity.
Qed.

End Recovery.

(** C1 (as amended).  When the service raises a context-length error with
    message [e], each of the seven calls raises a context-length error
    whose message contains [e] between its two rules, one line
    [<label> tokens: <count>] for every text field, for a context list one
    line [Context tokens: <count>] with the sum of the counts of its
    entries, the base-prompt count (the total minus the reported counts)
    and the total count of the prompt. *)
Theorem context_length_error_reports_counts
    (i : task_inputs) (svc : OpenAIService) (e : string) :
  get_response svc (build_prompt i) = Raise (ContextLengthException e) ->
  exists msg : string,
    run_call i svc = Raise (ContextLengthException msg)
    /\ contains (nl ++ "----------" ++ nl ++ e ++ nl ++ "----------" ++ nl) msg
    /\ (forall (label : string) (n : Z),
          In (label, n) (reported_counts i svc) ->
          contains (nl ++ label ++ " tokens: " ++ str_int n ++ nl) msg)
    /\ contains (nl ++ "Base prompt tokens: "
                 ++ str_int (get_token_count svc (build_prompt i)
                             - sum_Z (map snd (reported_counts i svc)))
                 ++ nl) msg
    /\ contains (nl ++ "Total tokens: "
                 ++ str_int (get_token_count svc (build_prompt i))) msg.
Proof.
  intros H.
  exists (overflow_message (overflow_title (task_of i)) e (token_report i svc)).
  split; [now apply run_call_overflow|].
  split; [apply overflow_message_contains_original|].
  split.
  - intros label n Hin. apply overflow_message_contains_segment.
    now rewrite token_report_segments.
  - rewrite <- token_report_segments, <- token_report_total, <- token_report_residual.
    split.
    + apply overflow_message_contains_base.
    + apply overflow_message_contains_total.
Qed.

(** The theorem at a consistency call with two contexts of seven and two
    characters, against the service that counts characters. *)
Lemma context_length_error_reports_counts_witness :
  exists msg : string,
    run_call (ConsistencyInputs "yes" ["aaaaaaa"; "bb"]) overflowing_service
    = Raise (ContextLengthException msg)
    /\ contains (nl ++ "----------" ++ nl ++ "maximum context length exceeded"
                 ++ nl ++ "----------" ++ nl) msg
    /\ (forall (label : string) (n : Z),
          In (label, n)
             (reported_counts (ConsistencyInputs "yes" ["aaaaaaa"; "bb"])
                              overflowing_service) ->
          contains (nl ++ label ++ " tokens: " ++ str_int n ++ nl) msg)
    /\ contains (nl ++ "Base prompt tokens: "
                 ++ str_int (get_token_count overflowing_service
                               (build_prompt (ConsistencyInputs "yes" ["aaaaaaa"; "bb"]))
                             - sum_Z (map snd
                                 (reported_counts (ConsistencyInputs "yes" ["aaaaaaa"; "bb"])
                                                  overflowing_service)))
                 ++ nl) msg
    /\ contains (nl ++ "Total tokens: "
                 ++ str_int (get_token_count overflowing_service
                               (build_prompt (ConsistencyInputs "yes" ["aaaaaaa"; "bb"])))) msg.
Proof.
  apply (context_length_error_reports_counts
           (ConsistencyInputs "yes" ["aaaaaaa"; "bb"]) overflowing_service
           "maximum context length exceeded").
  reflexivity.
Defined.

(** C1 (as stated) fails.  The consistency call with contexts of seven and
    two tokens raises a message with the lines [Answer tokens: 3],
    [Context tokens: 9], [Base prompt tokens: 484] and [Total tokens: 496]:
    the count of the first context, 7, is nowhere in it. *)
Lemma consistency_message_omits_context_counts :
  exists msg : string,
    get_response overflowing_service
      (build_prompt (ConsistencyInputs "yes" ["aaaaaaa"; "bb"]))
    = Raise (ContextLengthException "maximum context length exceeded")
    /\ run_call (ConsistencyInputs "yes" ["aaaaaaa"; "bb"]) overflowing_service
       = Raise (ContextLengthException msg)
    /\ ~ itemizes_context_counts overflowing_service ["aaaaaaa"; "bb"] msg.
Proof.
  eexists. split; [reflexivity|]. split; [vm_compute; reflexivity|].
  intros H. specialize (H 0%nat "aaaaaaa" eq_refl).
  apply is_substring_true_iff in H. vm_compute in H. discriminate.
Qed.

(** The message of that call, in full. *)
Example consistency_overflow_message_text :
  run_call (ConsistencyInputs "yes" ["aaaaaaa"; "bb"]) overflowing_service
  = Raise (ContextLengthException
      ("Consistency prompt too long to score item. OpenAI returned the following error message"
       ++ nl ++ "----------"
       ++ nl ++ "maximum context length exceeded"
       ++ nl ++ "----------"
       ++ nl ++ "See details below for breakdown of token counts"
       ++ nl ++ "Answer tokens: 3"
       ++ nl ++ "Context tokens: 9"
       ++ nl ++ "Base prompt tokens: 484"
       ++ nl ++ "Total tokens: 496")).
Proof. vm_compute. reflexivity. Qed.

(** The same message for contexts of eight and one tokens: the message
    does not tell the two lists apart. *)
Example overflow_message_same_for_other_split :
  run_call (ConsistencyInputs "yes" ["aaaaaaa"; "bb"]) overflowing_service
  = run_call (ConsistencyInputs "yes" ["aaaaaaaa"; "b"]) overflowing_service.
Proof. vm_compute. reflexivity. Qed.

(** C2.  Whenever a call builds its token counts (the service has raised a
    context-length error), the message it raises is the one of
    [token_report], and in that report the counts of the segments plus the
    base-prompt count equal the total count, for every task, all inputs
    and every token counter. *)
Theorem token_counts_add_up_to_total
    (i : task_inputs) (svc : OpenAIService) (e : string) :
  get_response svc (build_prompt i) = Raise (ContextLengthException e) ->
  run_call i svc =
    Raise (ContextLengthException
             (overflow_message (overflow_title (task_of i)) e (token_report i svc)))
  /\ sum_Z (map snd (segment_tokens (token_report i svc)))
     + base_prompt_tokens (token_report i svc)
     = total_tokens (token_report i svc).
Proof.
  intros H. split.
  - now apply run_call_overflow.
  - rewrite token_report_residual. lia.
Qed.

Lemma token_counts_add_up_to_total_witness :
  run_call (SimilarityInputs "What is the capital of France?" "Paris"
                             "The capital is Paris.") overflowing_service
  = Raise (ContextLengthException
             (overflow_message (overflow_title Similarity)
                "maximum context length exceeded"
                (token_report (SimilarityInputs "What is the capital of France?" "Paris"
                                                "The capital is Paris.")
                              overflowing_service)))
  /\ sum_Z (map snd (segment_tokens
              (token_report (SimilarityInputs "What is the capital of France?" "Paris"
                                              "The capital is Paris.")
                            overflowing_service)))
     + base_prompt_tokens
         (token_report (SimilarityInputs "What is the capital of France?" "Paris"
                                         "The capital is Paris.")
                       overflowing_service)
     = total_tokens
         (token_report (SimilarityInputs "What is the capital of France?" "Paris"
                                         "The capital is Paris.")
                       overflowing_service).
Proof.
  apply (token_counts_add_up_to_total
           (SimilarityInputs "What is the capital of France?" "Paris"
                             "The capital is Paris.")
           overflowing_service "maximum context length exceeded").
  reflexivity.
Defined.

(** The report of that call: 30 + 5 + 21 tokens of fields, 316 of base
    prompt, 372 in total. *)
Example similarity_token_report :
  token_report (SimilarityInputs "What is the capital of France?" "Paris"
                                 "The capital is Paris.") overflowing_service
  = {| segment_tokens := [("Question", 30); ("Reference answer", 5); ("New answer", 21)];
       base_prompt_tokens := 316;
       total_tokens := 372 |}.
Proof. vm_compute. reflexivity. Qed.

(* ================================================================== *)
(** ** The PII metric                                                  *)
(* ================================================================== *)

Section PiiMetric.

Import answer_contains_pii_metric.

Lemma str_in_true_iff (x : string) (l : list string) :
  str_in x l = true <-> In x l.
Proof.
  unfold str_in. rewrite existsb_exists. split.
  - intros (y & Hy & Heq). apply String.eqb_eq in Heq. now subst y.
  - intros H. exists x. split; [exact H | apply String.eqb_refl].
Qed.

(** The loop answers 1.0 exactly when some label, lowercased, is in the
    list, and 0.0 otherwise. *)
Lemma scan_results_one (lower : string -> string)
    (pts : list string) (ds : list DeidentifyResult) :
  scan_results lower pts ds = 1%Q <-> exists d, In d ds /\ In (lower (label d)) pts.
Proof.
  induction ds as [|d ds IH]; simpl.
  - split; [discriminate | intros (d & [] & _)].
  - destruct (str_in (lower (label d)) pts) eqn:E.
    + split; [intros _ | reflexivity].
      exists d. split; [now left | now apply str_in_true_iff].
    + rewrite IH. split.
      * intros (d' & Hin & Hl). exists d'. split; [now right | exact Hl].
      * intros (d' & [<- | Hin] & Hl).
        -- apply str_in_true_iff in Hl. congruence.
        -- now exists d'.
Qed.

Lemma scan_results_cases (lower : string -> string)
    (pts : list string) (ds : list DeidentifyResult) :
  scan_results lower pts ds = 1%Q \/ scan_results lower pts ds = 0%Q.
Proof.
  induction ds as [|d ds IH]; simpl.
  - now right.
  - destruct (str_in (lower (label d)) pts); [now left | exact IH].
Qed.

Lemma scan_results_zero (lower : string -> string)
    (pts : list string) (ds : list DeidentifyResult) :
  scan_results lower pts ds = 0%Q <-> forall d, In d ds -> ~ In (lower (label d)) pts.
Proof.
  split.
  - intros H0 d Hin Hl.
    assert (H1 : scan_results lower pts ds = 1%Q) by (apply scan_results_one; eauto).
    rewrite H0 in H1. discriminate.
  - intros H. destruct (scan_results_cases lower pts ds) as [H1 | H0]; [|exact H0].
    apply scan_results_one in H1. destruct H1 as (d & Hin & Hl).
    now destruct (H d Hin).
Qed.

(** The constructor stores the requested types lowercased. *)
Lemma init_pii_types (lower : string -> string)
    (requested : list string) (key env : option string)
    (connect : string -> option string -> TonicTextual)
    (self : AnswerContainsPiiMetric) :
  init lower requested key env connect = Return self ->
  pii_types self = map lower requested.
Proof.
  unfold init. destruct key as [k|]; [|destruct env as [k|]]; intros H;
    try discriminate; injection H as <-; reflexivity.
Qed.

(** Without a key, neither passed nor in the environment, construction fails. *)
Lemma init_without_key (lower : string -> string) (requested : list string)
    (connect : string -> option string -> TonicTextual) :
  exists msg, init lower requested None None connect = Raise (ValueError msg).
Proof. eexists. reflexivity. Qed.

Lemma metric_callback_returns (lower : string -> string)
    (self : AnswerContainsPiiMetric) (r : LLMResponse)
    (svc : OpenAIService) (resp : RedactionResponse) :
  redact (textual self) (join nl (llm_context_list r)) = Return resp ->
  metric_callback lower self r svc
  = Return (scan_results lower (pii_types self) (de_identify_results resp)).
Proof. intros H. unfold metric_callback. now rewrite H. Qed.

Lemma in_lowered (lower : string -> string) (x : string) (requested : list string) :
  In (lower x) (map lower requested) <->
  exists p, In p requested /\ lower x = lower p.
Proof.
  rewrite in_map_iff. split; intros (p & A & B); exists p; auto.
Qed.

(** C3.  For a metric constructed for the types [requested], and a
    redaction reply [resp] for the joined contexts, the score is 1.0
    exactly when some detected label and some requested type are equal
    after lowercasing both, and 0.0 exactly when no detected label matches
    any requested type that way; it is always one of the two.  This holds
    whatever function [lower] stands for [str.lower], so it holds for
    [str.lower] with its Unicode case tables. *)
Theorem pii_score_iff_label_requested (lower : string -> string)
    (requested : list string) (key env : option string)
    (connect : string -> option string -> TonicTextual)
    (self : AnswerContainsPiiMetric) (r : LLMResponse) (svc : OpenAIService)
    (resp : RedactionResponse) :
  init lower requested key env connect = Return self ->
  redact (textual self) (join nl (llm_context_list r)) = Return resp ->
  (metric_callback lower self r svc = Return 1%Q <->
     exists d p, In d (de_identify_results resp) /\ In p requested
                 /\ lower (label d) = lower p)
  /\ (metric_callback lower self r svc = Return 0%Q <->
        forall d p, In d (de_identify_results resp) -> In p requested ->
                    lower (label d) <> lower p)
  /\ (metric_callback lower self r svc = Return 1%Q
      \/ metric_callback lower self r svc = Return 0%Q).
Proof.
  intros Hinit Hred.
  rewrite (metric_callback_returns lower self r svc resp Hred).
  rewrite (init_pii_types lower _ _ _ _ _ Hinit).
  split; [|split].
  - split.
    + intros H. injection H as H. apply scan_results_one in H.
      destruct H as (d & Hin & Hl). apply in_lowered in Hl.
      destruct Hl as (p & Hp & Heq). now exists d, p.
    + intros (d & p & Hin & Hp & Heq). f_equal. apply scan_results_one.
      exists d. split; [exact Hin|]. apply in_lowered. now exists p.
  - split.
    + intros H d p Hin Hp Heq. injection H as H.
      apply (proj1 (scan_results_zero lower _ _) H d Hin).
      apply in_lowered. now exists p.
    + intros H. f_equal. apply scan_results_zero. intros d Hin Hl.
      apply in_lowered in Hl. destruct Hl as (p & Hp & Heq).
      exact (H d p Hin Hp Heq).
  - destruct (scan_results_cases lower (map lower requested) (de_identify_results resp))
      as [-> | ->]; [now left | now right].
Qed.

(** The theorem for the requested type [email] and the detected labels
    [Email] and [Name]. *)
Lemma pii_score_iff_label_requested_witness :
  let self := {| pii_types := ["email"]; textual := fixed_textual ["Email"; "Name"] |} in
  let r := {| llm_answer := "Write to us."; llm_context_list := ["Mail: a@b.org"; "Bob"] |} in
  let resp := {| de_identify_results :=
                   [ {| label := "Email"; span_start := 0; span_end := 0 |};
                     {| label := "Name"; span_start := 0; span_end := 0 |} ] |} in
  (metric_callback ascii_lower self r (echo_service "gpt-4") = Return 1%Q <->
     exists d p, In d (de_identify_results resp) /\ In p ["email"]
                 /\ ascii_lower (label d) = ascii_lower p)
  /\ (metric_callback ascii_lower self r (echo_service "gpt-4") = Return 0%Q <->
        forall d p, In d (de_identify_results resp) -> In p ["email"] ->
                    ascii_lower (label d) <> ascii_lower p)
  /\ (metric_callback ascii_lower self r (echo_service "gpt-4") = Return 1%Q
      \/ metric_callback ascii_lower self r (echo_service "gpt-4") = Return 0%Q).
Proof.
  cbv zeta.
  apply (pii_score_iff_label_requested ascii_lower ["email"] (Some "key") None
           (fun _ _ => fixed_textual ["Email"; "Name"])).
  - reflexivity.
  - reflexivity.
Defined.

(** The text sent to the redaction service. *)
Example joined_contexts :
  join nl ["Mail: a@b.org"; "Bob"] = "Mail: a@b.org" ++ nl ++ "Bob".
Proof. reflexivity. Qed.

Lemma ascii_lower_lowers_ascii_texts : lowers_ascii_texts ascii_lower.
Proof. intros s _. reflexivity. Qed.

(** The examples of the specification, for every lowercasing function
    that treats ASCII texts as [str.lower] does. *)
Example pii_email_detected (lower : string -> string) :
  lowers_ascii_texts lower ->
  metric_callback lower
    {| pii_types := ["email"]; textual := fixed_textual ["Email"; "Name"] |}
    {| llm_answer := "Write to us."; llm_context_list := ["Mail: a@b.org"; "Bob"] |}
    (echo_service "gpt-4")
  = Return 1%Q.
Proof.
  intros L. unfold metric_callback. cbn.
  rewrite (L "Email" eq_refl). reflexivity.
Qed.

Example pii_only_name_detected (lower : string -> string) :
  lowers_ascii_texts lower ->
  metric_callback lower
    {| pii_types := ["email"]; textual := fixed_textual ["Name"] |}
    {| llm_answer := "Write to us."; llm_context_list := ["Bob"] |}
    (echo_service "gpt-4")
  = Return 0%Q.
Proof.
  intros L. unfold metric_callback. cbn.
  rewrite (L "Name" eq_refl). reflexivity.
Qed.

Example pii_service_unreachable (lower : string -> string) :
  metric_callback lower
    {| pii_types := ["email"]; textual := unreachable_textual |}
    {| llm_answer := "Write to us."; llm_context_list := ["Bob"] |}
    (echo_service "gpt-4")
  = Raise (ValueError cannot_compute).
Proof. reflexivity. Qed.

(** C4.  When the redaction call raises, the scoring call raises too and
    returns no score: a [ValueError] with the fixed message when the
    exception is an [Exception], the exception itself otherwise. *)
Theorem pii_failure_is_raised (lower : string -> string)
    (self : AnswerContainsPiiMetric) (r : LLMResponse) (svc : OpenAIService)
    (e : exn) :
  redact (textual self) (join nl (llm_context_list r)) = Raise e ->
  (exists e', metric_callback lower self r svc = Raise e')
  /\ (forall score : Q, metric_callback lower self r svc <> Return score)
  /\ (is_Exception e = true ->
      metric_callback lower self r svc = Raise (ValueError cannot_compute))
  /\ (is_Exception e = false -> metric_callback lower self r svc = Raise e).
Proof.
  intros H. unfold metric_callback. rewrite H.
  destruct (is_Exception e); repeat split; eauto; discriminate.
Qed.

Lemma pii_failure_is_raised_witness :
  let self := {| pii_types := ["email"]; textual := unreachable_textual |} in
  let r := {| llm_answer := "Write to us."; llm_context_list := ["Bob"] |} in
  let e := OtherException "ConnectionError" "connection refused" in
  (exists e', metric_callback ascii_lower self r (echo_service "gpt-4") = Raise e')
  /\ (forall score : Q,
        metric_callback ascii_lower self r (echo_service "gpt-4") <> Return score)
  /\ (is_Exception e = true ->
      metric_callback ascii_lower self r (echo_service "gpt-4")
      = Raise (ValueError cannot_compute))
  /\ (is_Exception e = false ->
      metric_callback ascii_lower self r (echo_service "gpt-4") = Raise e).
Proof.
  cbv zeta.
  apply (pii_failure_is_raised ascii_lower
           {| pii_types := ["email"]; textual := unreachable_textual |}
           {| llm_answer := "Write to us."; llm_context_list := ["Bob"] |}
           (echo_service "gpt-4")
           (OtherException "ConnectionError" "connection refused")).
  reflexivity.
Defined.

(** C10.  The score is a function of the metric and of the context list
    alone: responses with the same context list get the same score,
    whatever their answers and whatever OpenAI service is passed; and the
    redaction service is asked about one text only, the contexts joined
    by newlines, so two services that agree on that text give the same
    score. *)
Theorem pii_score_ignores_answer (lower : string -> string)
    (self : AnswerContainsPiiMetric) (r1 r2 : LLMResponse)
    (svc1 svc2 : OpenAIService) :
  llm_context_list r1 = llm_context_list r2 ->
  metric_callback lower self r1 svc1 = metric_callback lower self r2 svc2
  /\ (forall other : TonicTextual,
        redact other (join nl (llm_context_list r1))
        = redact (textual self) (join nl (llm_context_list r1)) ->
        metric_callback lower {| pii_types := pii_types self; textual := other |} r1 svc1
        = metric_callback lower self r1 svc1).
Proof.
  intros H. split.
  - unfold metric_callback. now rewrite H.
  - intros other Ho. unfold metric_callback. cbn [textual pii_types]. now rewrite Ho.
Qed.

Lemma pii_score_ignores_answer_witness :
  let self := {| pii_types := ["email"]; textual := fixed_textual ["Email"; "Name"] |} in
  let r1 := {| llm_answer := "Write to us."; llm_context_list := ["Mail: a@b.org"; "Bob"] |} in
  let r2 := {| llm_answer := "My SSN is 078-05-1120.";
               llm_context_list := ["Mail: a@b.org"; "Bob"] |} in
  metric_callback ascii_lower self r1 (echo_service "gpt-4")
  = metric_callback ascii_lower self r2 overflowing_service
  /\ (forall other : TonicTextual,
        redact other (join nl (llm_context_list r1))
        = redact (textual self) (join nl (llm_context_list r1)) ->
        metric_callback ascii_lower {| pii_types := pii_types self; textual := other |} r1
                        (echo_service "gpt-4")
        = metric_callback ascii_lower self r1 (echo_service "gpt-4")).
Proof.
  cbv zeta.
  apply (pii_score_ignores_answer ascii_lower
           {| pii_types := ["email"]; textual := fixed_textual ["Email"; "Name"] |}
           {| llm_answer := "Write to us."; llm_context_list := ["Mail: a@b.org"; "Bob"] |}
           {| llm_answer := "My SSN is 078-05-1120.";
              llm_context_list := ["Mail: a@b.org"; "Bob"] |}
           (echo_service "gpt-4") overflowing_service).
  reflexivity.
Defined.

End PiiMetric.

(* ================================================================== *)
(** ** Occurrences across a concatenation                              *)
(* ================================================================== *)

Section Occurrences.

Lemma str_app_eq_app (a : string) :
  forall b c d : string,
    a ++ b = c ++ d ->
    (exists m, c = a ++ m /\ b = m ++ d) \/ (exists m, a = c ++ m /\ d = m ++ b).
Proof.
  induction a as [|x a IH]; intros b c d H.
  - left. exists c. now split.
  - destruct c as [|y c].
    + right. exists (String x a). now split.
    + simpl in H. injection H as -> H.
      destruct (IH b c d H) as [(m & -> & ->) | (m & -> & ->)].
      * left. now exists m.
      * right. now exists m.
Qed.

(** An occurrence in [a ++ b] lies in [a], lies in [b], or starts in [a]
    and ends in [b]. *)
Lemma contains_app_inv (sub a b : string) :
  contains sub (a ++ b) ->
  contains sub a \/ contains sub b \/
  exists s1 s2, sub = s1 ++ s2 /\ s1 <> EmptyString /\ s2 <> EmptyString
                /\ (exists p, a = p ++ s1) /\ (exists q, b = s2 ++ q).
Proof.
  intros (pre & post & H).
  destruct (str_app_eq_app a b pre (sub ++ post) H) as [(m & -> & ->) | (m & -> & H2)].
  - right. left. now exists m, post.
  - symmetry in H2.
    destruct (str_app_eq_app m b sub post H2) as [(m' & -> & ->) | (m' & -> & ->)].
    + destruct m as [|x m].
      * right. left. exists EmptyString, post. exact H2.
      * destruct m' as [|y m'].
        -- left. exists pre, EmptyString. now rewrite !str_app_nil_r.
        -- right. right. exists (String x m), (String y m').
           repeat split; try discriminate; eauto.
    + left. now exists pre, m'.
Qed.

Lemma str_last_of_suffix (x : ascii) (p : string) :
  forall a0 s1 : string,
    p ++ s1 = a0 ++ String x EmptyString -> s1 <> EmptyString ->
    exists s1', s1 = s1' ++ String x EmptyString.
Proof.
  induction p as [|c p IH]; intros a0 s1 H Hne.
  - now exists a0.
  - destruct a0 as [|c0 a0]; simpl in H; injection H as -> H.
    + destruct p; [destruct s1; [congruence | discriminate] | discriminate].
    + exact (IH a0 s1 H Hne).
Qed.

(** When [a] ends with a character that [sub] does not have, no
    occurrence of [sub] starts in [a] and ends after it. *)
Lemma contains_app_after_sep (sub a0 : string) (x : ascii) (b : string) :
  ~ contains (String x EmptyString) sub ->
  contains sub ((a0 ++ String x EmptyString) ++ b) ->
  contains sub (a0 ++ String x EmptyString) \/ contains sub b.
Proof.
  intros Hx H.
  destruct (contains_app_inv _ _ _ H)
    as [Ha | [Hb | (s1 & s2 & -> & Hs1 & _ & (p & Hp) & _)]]; auto.
  symmetry in Hp.
  destruct (str_last_of_suffix x p a0 s1 Hp Hs1) as (s1' & ->).
  destruct Hx. exists s1', s2. now rewrite !str_app_assoc.
Qed.

(** When [b] starts with a character that [sub] does not have, no
    occurrence of [sub] starts before [b] and ends in it. *)
Lemma contains_app_before_sep (sub a : string) (y : ascii) (b0 : string) :
  ~ contains (String y EmptyString) sub ->
  contains sub (a ++ String y b0) ->
  contains sub a \/ contains sub (String y b0).
Proof.
  intros Hy H.
  destruct (contains_app_inv _ _ _ H)
    as [Ha | [Hb | (s1 & s2 & -> & _ & Hs2 & _ & (q & Hq))]]; auto.
  destruct s2 as [|c s2]; [congruence|].
  simpl in Hq. injection Hq as <- _.
  destruct Hy. now exists s1, s2.
Qed.

End Occurrences.

(* ================================================================== *)
(** ** Context blocks and labelled fields                              *)
(* ================================================================== *)

Section Fields.

(** C5.  In both modules the consistency and the derivation prompt are the
    instruction, the blocks of the context list and the answer (after the
    blocks) or the statement (before them); there are as many blocks as
    contexts; block number [i] is [CONTEXT i:], the text of entry [i],
    [END OF CONTEXT i]; and after two entries are swapped, each of the two
    indices stands with the text of the other entry. *)
Theorem context_blocks_numbered_in_order (first : string) (context_list : list string) :
  llm_calls.answer_consistent_with_context_main_message first context_list
    = llm_calls.answer_consistent_with_context_instruction
      ++ render_blocks (context_blocks context_list)
      ++ nl ++ nl ++ "ANSWER: " ++ first
  /\ llm_calls.statement_derived_from_context_main_message first context_list
    = llm_calls.statement_derived_from_context_instruction
      ++ nl ++ nl ++ "STATEMENT:" ++ nl ++ first ++ nl ++ "END OF STATEMENT"
      ++ render_blocks (context_blocks context_list)
  /\ tval_llm_calls.ask_whether_answer_is_consistent_with_context_main_message
       first context_list
    = tval_llm_calls.ask_whether_answer_is_consistent_with_context_instruction
      ++ render_blocks (context_blocks context_list)
      ++ nl ++ nl ++ "ANSWER: " ++ first
  /\ tval_llm_calls.ask_whether_statement_derived_from_context_main_message
       first context_list
    = tval_llm_calls.ask_whether_statement_derived_from_context_instruction
      ++ nl ++ nl ++ "STATEMENT:" ++ nl ++ first ++ nl ++ "END OF STATEMENT"
      ++ render_blocks (context_blocks context_list)
  /\ List.length (context_blocks context_list) = List.length context_list
  /\ (forall (i : nat) (text : string),
        nth_error context_list i = Some text ->
        nth_error (context_blocks context_list) i
        = Some ("CONTEXT " ++ str_int (Z.of_nat i) ++ ":" ++ nl ++ text ++ nl
                ++ "END OF CONTEXT " ++ str_int (Z.of_nat i)))
  /\ (forall (i j : nat) (text_i text_j : string),
        nth_error context_list i = Some text_i ->
        nth_error context_list j = Some text_j ->
        nth_error (context_blocks (swap_entries context_list i j)) i
        = Some (context_block (Z.of_nat i) text_j)
        /\ nth_error (context_blocks (swap_entries context_list i j)) j
           = Some (context_block (Z.of_nat j) text_i)).
Proof.
  split; [exact (build_prompt_shape (ConsistencyInputs first context_list))|].
  split; [exact (build_prompt_shape (DerivationInputs first context_list))|].
  split.
  { destruct (tval_build_prompt_shape (ConsistencyInputs first context_list) _ eq_refl)
      as (h & Hh & Hp).
    injection Hh as <-. exact Hp. }
  split.
  { destruct (tval_build_prompt_shape (DerivationInputs first context_list) _ eq_refl)
      as (h & Hh & Hp).
    injection Hh as <-. exact Hp. }
  split; [apply context_blocks_length|].
  split.
  - intros i text H. exact (context_blocks_nth context_list i text H).
  - intros i j text_i text_j Hi Hj.
    destruct (swap_entries_nth context_list i j text_i text_j Hi Hj) as [Si Sj].
    split; now apply context_blocks_nth.
Qed.

Example consistency_prompt_two_contexts :
  llm_calls.answer_consistent_with_context_main_message "Paris." ["France"; "Capital"]
  = llm_calls.answer_consistent_with_context_instruction
    ++ nl ++ nl ++ "CONTEXT 0:" ++ nl ++ "France" ++ nl ++ "END OF CONTEXT 0"
    ++ nl ++ nl ++ "CONTEXT 1:" ++ nl ++ "Capital" ++ nl ++ "END OF CONTEXT 1"
    ++ nl ++ nl ++ "ANSWER: Paris.".
Proof. vm_compute. reflexivity. Qed.

Example consistency_prompt_swapped :
  llm_calls.answer_consistent_with_context_main_message "Paris."
    (swap_entries ["France"; "Capital"] 0 1)
  = llm_calls.answer_consistent_with_context_instruction
    ++ nl ++ nl ++ "CONTEXT 0:" ++ nl ++ "Capital" ++ nl ++ "END OF CONTEXT 0"
    ++ nl ++ nl ++ "CONTEXT 1:" ++ nl ++ "France" ++ nl ++ "END OF CONTEXT 1"
    ++ nl ++ nl ++ "ANSWER: Paris.".
Proof. vm_compute. reflexivity. Qed.

Lemma no_space_in_marker : ~ contains " " "CONTEXT".
Proof. apply not_contains. reflexivity. Qed.

Lemma no_newline_in_marker : ~ contains nl "CONTEXT".
Proof. apply not_contains. reflexivity. Qed.

Lemma consistency_empty_no_marker (answer : string) :
  ~ contains "CONTEXT" answer ->
  ~ contains "CONTEXT"
      (llm_calls.answer_consistent_with_context_instruction
       ++ nl ++ nl ++ "ANSWER: " ++ answer).
Proof.
  intros Ha H.
  replace (llm_calls.answer_consistent_with_context_instruction
           ++ nl ++ nl ++ "ANSWER: " ++ answer)
    with (((llm_calls.answer_consistent_with_context_instruction ++ nl ++ nl ++ "ANSWER:")
           ++ " ") ++ answer) in H
    by (str_norm; reflexivity).
  apply contains_app_after_sep in H; [|exact no_space_in_marker].
  destruct H as [H | H]; [|auto].
  revert H. apply not_contains. vm_compute. reflexivity.
Qed.

Lemma derivation_empty_no_marker (statement : string) :
  ~ contains "CONTEXT" statement ->
  ~ contains "CONTEXT"
      (llm_calls.statement_derived_from_context_instruction
       ++ nl ++ nl ++ "STATEMENT:" ++ nl ++ statement ++ nl ++ "END OF STATEMENT").
Proof.
  intros Hs H.
  replace (llm_calls.statement_derived_from_context_instruction
           ++ nl ++ nl ++ "STATEMENT:" ++ nl ++ statement ++ nl ++ "END OF STATEMENT")
    with (((llm_calls.statement_derived_from_context_instruction ++ nl ++ nl ++ "STATEMENT:")
           ++ nl) ++ (statement ++ String (ascii_of_nat 10) "END OF STATEMENT")) in H
    by (str_norm; reflexivity).
  apply contains_app_after_sep in H; [|exact no_newline_in_marker].
  destruct H as [H | H].
  - revert H. apply not_contains. vm_compute. reflexivity.
  - apply contains_app_before_sep in H; [|exact no_newline_in_marker].
    destruct H as [H | H]; [auto|].
    revert H. apply not_contains. vm_compute. reflexivity.
Qed.

(** C6.  For the empty context list both builders return a prompt: the
    consistency prompt is the instruction, one empty line and the answer
    line; the derivation prompt is the instruction, one empty line and the
    statement between its two delimiters, with nothing after
    [END OF STATEMENT]; no block is rendered, and unless the answer or the
    statement itself has the word, [CONTEXT] is nowhere in the prompt. *)
Theorem empty_context_list_renders_no_block (answer statement : string) :
  llm_calls.answer_consistent_with_context_main_message answer []
    = llm_calls.answer_consistent_with_context_instruction
      ++ nl ++ nl ++ "ANSWER: " ++ answer
  /\ llm_calls.statement_derived_from_context_main_message statement []
    = llm_calls.statement_derived_from_context_instruction
      ++ nl ++ nl ++ "STATEMENT:" ++ nl ++ statement ++ nl ++ "END OF STATEMENT"
  /\ context_blocks [] = []
  /\ (~ contains "CONTEXT" answer ->
      ~ contains "CONTEXT"
          (llm_calls.answer_consistent_with_context_main_message answer []))
  /\ (~ contains "CONTEXT" statement ->
      ~ contains "CONTEXT"
          (llm_calls.statement_derived_from_context_main_message statement [])).
Proof.
  assert (A : llm_calls.answer_consistent_with_context_main_message answer []
              = llm_calls.answer_consistent_with_context_instruction
                ++ nl ++ nl ++ "ANSWER: " ++ answer) by reflexivity.
  assert (B : llm_calls.statement_derived_from_context_main_message statement []
              = llm_calls.statement_derived_from_context_instruction
                ++ nl ++ nl ++ "STATEMENT:" ++ nl ++ statement ++ nl ++ "END OF STATEMENT")
    by reflexivity.
  repeat split; try assumption.
  - rewrite A. apply consistency_empty_no_marker.
  - rewrite B. apply derivation_empty_no_marker.
Qed.

Example empty_context_list_prompt :
  is_substring "CONTEXT"
    (llm_calls.answer_consistent_with_context_main_message "Paris." []) = false
  /\ is_substring "CONTEXT"
       (llm_calls.statement_derived_from_context_main_message "Paris is in France." [])
     = false.
Proof. split; vm_compute; reflexivity. Qed.

(** C7.  The similarity prompt, in both modules, is the instruction
    followed by three lines: [QUESTION: ] and the whole question,
    [REFERENCE ANSWER: ] and the whole reference answer, [NEW ANSWER: ] and
    the whole new answer; so each of the three inputs stands in the prompt
    unchanged after its label. *)
Theorem similarity_prompt_has_fields_verbatim (question reference_answer llm_answer : string) :
  llm_calls.similarity_score_main_message question reference_answer llm_answer
    = llm_calls.similarity_score_instruction
      ++ nl ++ "QUESTION: " ++ question
      ++ nl ++ "REFERENCE ANSWER: " ++ reference_answer
      ++ nl ++ "NEW ANSWER: " ++ llm_answer ++ nl
  /\ tval_llm_calls.ask_for_similarity_score_main_message
       question reference_answer llm_answer
    = tval_llm_calls.ask_for_similarity_score_instruction
      ++ nl ++ "QUESTION: " ++ question
      ++ nl ++ "REFERENCE ANSWER: " ++ reference_answer
      ++ nl ++ "NEW ANSWER: " ++ llm_answer ++ nl
  /\ contains (nl ++ "QUESTION: " ++ question ++ nl)
       (llm_calls.similarity_score_main_message question reference_answer llm_answer)
  /\ contains (nl ++ "REFERENCE ANSWER: " ++ reference_answer ++ nl)
       (llm_calls.similarity_score_main_message question reference_answer llm_answer)
  /\ contains (nl ++ "NEW ANSWER: " ++ llm_answer ++ nl)
       (llm_calls.similarity_score_main_message question reference_answer llm_answer).
Proof.
  assert (A : llm_calls.similarity_score_main_message question reference_answer llm_answer
              = llm_calls.similarity_score_instruction
                ++ nl ++ "QUESTION: " ++ question
                ++ nl ++ "REFERENCE ANSWER: " ++ reference_answer
                ++ nl ++ "NEW ANSWER: " ++ llm_answer ++ nl).
  { pose proof (build_prompt_shape
                  (SimilarityInputs question reference_answer llm_answer)) as S.
    cbn [build_prompt task_of instruction fields_text] in S.
    rewrite S. str_norm. reflexivity. }
  split; [exact A|].
  split.
  { destruct (tval_build_prompt_shape
                (SimilarityInputs question reference_answer llm_answer) _ eq_refl)
      as (h & Hh & Hp).
    injection Hh as <-. rewrite Hp. cbn [fields_text]. str_norm. reflexivity. }
  rewrite A. repeat split.
  - exists llm_calls.similarity_score_instruction,
           ("REFERENCE ANSWER: " ++ reference_answer
            ++ nl ++ "NEW ANSWER: " ++ llm_answer ++ nl).
    str_norm. reflexivity.
  - exists (llm_calls.similarity_score_instruction ++ nl ++ "QUESTION: " ++ question),
           ("NEW ANSWER: " ++ llm_answer ++ nl).
    str_norm. reflexivity.
  - exists (llm_calls.similarity_score_instruction
            ++ nl ++ "QUESTION: " ++ question
            ++ nl ++ "REFERENCE ANSWER: " ++ reference_answer),
           EmptyString.
    str_norm. reflexivity.
Qed.

(** The scenario of the specification. *)
Example similarity_prompt_capital_of_france :
  llm_calls.similarity_score_main_message
    "What is the capital of France?" "Paris" "The capital is Paris."
  = "Considering the reference answer and the new answer to the following question, on a scale of 0 to 5, where 5 means the same and 0 means not at all similar, how similar in meaning is the new answer to the reference answer? Respond with just a number and no additional text."
    ++ nl ++ "QUESTION: What is the capital of France?"
    ++ nl ++ "REFERENCE ANSWER: Paris"
    ++ nl ++ "NEW ANSWER: The capital is Paris." ++ nl.
Proof. vm_compute. reflexivity. Qed.

End Fields.

(* ================================================================== *)
(** ** The two modules side by side                                    *)
(* ================================================================== *)

Section TwoModules.

(** The instruction of [tval] after [replace] and [strip], for the
    similarity task: the line breaks and the indentation are gone. *)
Example tval_similarity_instruction_value :
  tval_llm_calls.ask_for_similarity_score_instruction
  = "Considering the reference answer and the new answer to the following question, on a scale of 0 to 5, where 5 means the same and 0 means not similar, how similar in meaning is the new answer to the reference answer? Respond with just a number and no additional text.".
Proof. vm_compute. reflexivity. Qed.

(** Only the derivation instruction has the same wording in both modules. *)
Lemma instructions_equal_iff (t : EvaluationTask) (h : string) :
  tval_instruction t = Some h ->
  (h = instruction t <-> t = Derivation).
Proof.
  destruct t; cbn [tval_instruction instruction]; intros H;
    try discriminate; injection H as <-;
    (split; intros E;
     [ try reflexivity; apply String.eqb_eq in E; vm_compute in E; discriminate
     | try discriminate; vm_compute; reflexivity ]).
Qed.

(** C8 (as stated) fails.  On the scenario of the specification the
    similarity prompt of [tval] is not the one of [tonic_validate]: the
    first says [0 means not similar], the second [0 means not at all
    similar]. *)
Lemma tval_similarity_prompt_differs :
  exists p : string,
    tval_build_prompt
      (SimilarityInputs "What is the capital of France?" "Paris" "The capital is Paris.")
    = Some p
    /\ p <> build_prompt
              (SimilarityInputs "What is the capital of France?" "Paris"
                                "The capital is Paris.").
Proof.
  eexists. split; [reflexivity|].
  intros E. apply String.eqb_eq in E. vm_compute in E. discriminate.
Qed.

(** C8 (as amended).  For every task of [tval] and all inputs, the two
    prompts are each module's own instruction followed by the same text of
    the fields; the whole prompts are equal exactly for the derivation
    task, whose instruction has the same wording in both modules. *)
Theorem tval_prompt_same_fields_own_instruction (i : task_inputs) (p : string) :
  tval_build_prompt i = Some p ->
  exists h : string,
    tval_instruction (task_of i) = Some h
    /\ p = h ++ fields_text i
    /\ build_prompt i = instruction (task_of i) ++ fields_text i
    /\ (p = build_prompt i <-> task_of i = Derivation).
Proof.
  intros H.
  destruct (tval_build_prompt_shape i p H) as (h & Hh & Hp).
  exists h. split; [exact Hh|]. split; [exact Hp|].
  split; [apply build_prompt_shape|].
  rewrite <- (instructions_equal_iff (task_of i) h Hh).
  rewrite Hp, build_prompt_shape. split.
  - apply str_app_inv_tail.
  - now intros ->.
Qed.

Lemma tval_prompt_same_fields_own_instruction_witness :
  exists h : string,
    tval_instruction (task_of (DerivationInputs "Paris is in France." ["France"; "Capital"]))
    = Some h
    /\ tval_llm_calls.ask_whether_statement_derived_from_context_main_message
         "Paris is in France." ["France"; "Capital"]
       = h ++ fields_text (DerivationInputs "Paris is in France." ["France"; "Capital"])
    /\ build_prompt (DerivationInputs "Paris is in France." ["France"; "Capital"])
       = instruction (task_of (DerivationInputs "Paris is in France." ["France"; "Capital"]))
         ++ fields_text (DerivationInputs "Paris is in France." ["France"; "Capital"])
    /\ (tval_llm_calls.ask_whether_statement_derived_from_context_main_message
          "Paris is in France." ["France"; "Capital"]
        = build_prompt (DerivationInputs "Paris is in France." ["France"; "Capital"])
        <-> task_of (DerivationInputs "Paris is in France." ["France"; "Capital"])
            = Derivation).
Proof.
  apply (tval_prompt_same_fields_own_instruction
           (DerivationInputs "Paris is in France." ["France"; "Capital"])).
  reflexivity.
Defined.

(** The derivation prompts of the two modules on that input. *)
Example derivation_prompts_equal :
  tval_llm_calls.ask_whether_statement_derived_from_context_main_message
    "Paris is in France." ["France"; "Capital"]
  = llm_calls.statement_derived_from_context_main_message
      "Paris is in France." ["France"; "Capital"].
Proof. vm_compute. reflexivity. Qed.

(** *** What a call sends *)

(** A call of [tval] hands the prompt of its builder to the collaborator,
    with the model it was given and the temperature 0. *)
Lemma tval_run_call_sends_build_prompt
    (get_single_message : string -> string -> Q -> result string)
    (i : task_inputs) (model_name : string) :
  tval_run_call get_single_message i model_name
  = option_map (fun prompt => get_single_message prompt model_name 0%Q)
               (tval_build_prompt i).
Proof. destruct i; reflexivity. Qed.

Lemma token_report_ext (i : task_inputs) (svc1 svc2 : OpenAIService) :
  (forall text, get_token_count svc1 text = get_token_count svc2 text) ->
  token_report i svc1 = token_report i svc2.
Proof.
  intros H.
  assert (S : forall l, llm_calls.sum_context_tokens svc1 l
                        = llm_calls.sum_context_tokens svc2 l).
  { intros l. rewrite !sum_context_tokens_spec. f_equal. now apply map_ext. }
  destruct i; cbn [token_report]; rewrite ?S, ?H; reflexivity.
Qed.

(** A call of [tonic_validate] asks the service for a reply to the prompt
    of its builder and to nothing else: two services that answer that
    prompt alike, and count alike, give the same outcome. *)
Lemma run_call_sends_build_prompt (i : task_inputs) (svc1 svc2 : OpenAIService) :
  get_response svc1 (build_prompt i) = get_response svc2 (build_prompt i) ->
  (forall text, get_token_count svc1 text = get_token_count svc2 text) ->
  run_call i svc1 = run_call i svc2.
Proof.
  intros Hr Hc.
  destruct (get_response svc2 (build_prompt i)) as [a|[m|m|n m|n]] eqn:E.
  2: { rewrite (run_call_overflow i svc1 m Hr), (run_call_overflow i svc2 m E).
       now rewrite (token_report_ext i svc1 svc2 Hc). }
  all: rewrite (run_call_passes_on i svc1), (run_call_passes_on i svc2);
    rewrite ?Hr, ?E; try reflexivity; intros e; discriminate.
Qed.

(** C9.  Two runs of a builder on equal inputs give the same prompt, in
    both modules; and the text that reaches the service in two runs of a
    call on equal inputs is the same, and is that prompt, whatever the
    model: the echoing service returns what it was sent. *)
Theorem prompt_building_deterministic
    (i1 i2 : task_inputs) (model1 model2 : string) :
  i1 = i2 ->
  build_prompt i1 = build_prompt i2
  /\ tval_build_prompt i1 = tval_build_prompt i2
  /\ run_call i1 (echo_service model1) = run_call i2 (echo_service model2)
  /\ run_call i1 (echo_service model1) = Return (build_prompt i2)
  /\ tval_run_call echo_single_message i1 model1
     = tval_run_call echo_single_message i2 model2
  /\ tval_run_call echo_single_message i1 model1
     = option_map Return (tval_build_prompt i2).
Proof.
  intros ->.
  assert (R : forall m, run_call i2 (echo_service m) = Return (build_prompt i2)).
  { intros m. rewrite run_call_passes_on; [reflexivity | intros e; discriminate]. }
  assert (T : forall m, tval_run_call echo_single_message i2 m
                        = option_map Return (tval_build_prompt i2)).
  { intros m. now rewrite tval_run_call_sends_build_prompt. }
  repeat split; rewrite ?R, ?T; reflexivity.
Qed.

Lemma prompt_building_deterministic_witness :
  let i := ConsistencyInputs "Paris." ["France"; "Capital"] in
  build_prompt i = build_prompt i
  /\ tval_build_prompt i = tval_build_prompt i
  /\ run_call i (echo_service "gpt-4") = run_call i (echo_service "gpt-3.5-turbo")
  /\ run_call i (echo_service "gpt-4") = Return (build_prompt i)
  /\ tval_run_call echo_single_message i "gpt-4"
     = tval_run_call echo_single_message i "gpt-3.5-turbo"
  /\ tval_run_call echo_single_message i "gpt-4"
     = option_map Return (tval_build_prompt i).
Proof.
  cbv zeta.
  apply (prompt_building_deterministic
           (ConsistencyInputs "Paris." ["France"; "Capital"])
           (ConsistencyInputs "Paris." ["France"; "Capital"])
           "gpt-4" "gpt-3.5-turbo").
  reflexivity.
Defined.

End TwoModules.

(* ================================================================== *)
(** ** Further properties of the calls                                 *)
(* ================================================================== *)

Section CallOutcomes.

(** A context-length error that a call raises is one the call has built:
    the service raised one, and the message is [overflow_message]. *)
Lemma run_call_raises_overflow (i : task_inputs) (svc : OpenAIService) (msg : string) :
  run_call i svc = Raise (ContextLengthException msg) ->
  exists e,
    get_response svc (build_prompt i) = Raise (ContextLengthException e)
    /\ msg = overflow_message (overflow_title (task_of i)) e (token_report i svc).
Proof.
  intros H.
  destruct (get_response svc (build_prompt i)) as [a|[m|m|n m|n]] eqn:E.
  2: { exists m. split; [reflexivity|].
       rewrite (run_call_overflow i svc m E) in H. now injection H as <-. }
  all: rewrite run_call_passes_on in H by (rewrite E; intros e; discriminate);
    rewrite E in H; discriminate.
Qed.

(** X1.  A reply of the service is returned as it is, and an exception
    that is not a context-length error is raised as it is, by each of the
    seven calls of [tonic_validate/utils/llm_calls.py]: only the
    context-length error is replaced. *)
Theorem other_outcomes_pass_unchanged (i : task_inputs) (svc : OpenAIService) :
  (forall reply : string,
     get_response svc (build_prompt i) = Return reply ->
     run_call i svc = Return reply)
  /\ (forall e : exn,
        get_response svc (build_prompt i) = Raise e ->
        (forall m, e <> ContextLengthException m) ->
        run_call i svc = Raise e)
  /\ (forall m : string,
        get_response svc (build_prompt i) = Raise (ContextLengthException m) ->
        run_call i svc <> Raise (ContextLengthException m)).
Proof.
  split; [|split].
  - intros reply H. rewrite run_call_passes_on; [exact H|].
    intros e. rewrite H. discriminate.
  - intros e H Hne. rewrite run_call_passes_on; [exact H|].
    intros m. rewrite H. intros E. injection E as ->. now destruct (Hne m).
  - intros m H. rewrite (run_call_overflow i svc m H). intros E.
    injection E as E. apply (f_equal String.length) in E.
    unfold overflow_message in E. rewrite !str_length_app in E.
    cbn [String.length nl] in E. lia.
Qed.

Lemma overflow_title_head (t : EvaluationTask) (rest : string) :
  String.substring 0 4 (overflow_title t ++ rest)
  = String.substring 0 4 (overflow_title t).
Proof. destruct t; reflexivity. Qed.

(** X2.  The message of a context-length error names the task: when two
    calls raise a context-length error with the same message, they are
    calls of the same task, whatever their inputs and services. *)
Theorem overflow_message_names_task
    (i1 i2 : task_inputs) (svc1 svc2 : OpenAIService) (msg : string) :
  run_call i1 svc1 = Raise (ContextLengthException msg) ->
  run_call i2 svc2 = Raise (ContextLengthException msg) ->
  task_of i1 = task_of i2.
Proof.
  intros H1 H2.
  destruct (run_call_raises_overflow i1 svc1 msg H1) as (e1 & _ & M1).
  destruct (run_call_raises_overflow i2 svc2 msg H2) as (e2 & _ & M2).
  rewrite M1 in M2. apply (f_equal (String.substring 0 4)) in M2.
  unfold overflow_message in M2. rewrite !overflow_title_head in M2.
  destruct (task_of i1), (task_of i2); try reflexivity;
    vm_compute in M2; discriminate.
Qed.

Lemma overflow_message_names_task_witness :
  task_of (ConsistencyInputs "yes" ["aaaaaaa"; "bb"])
  = task_of (ConsistencyInputs "yes" ["aaaaaaaa"; "b"]).
Proof.
  apply (overflow_message_names_task
           (ConsistencyInputs "yes" ["aaaaaaa"; "bb"])
           (ConsistencyInputs "yes" ["aaaaaaaa"; "b"])
           overflowing_service overflowing_service
           (overflow_message "Consistency" "maximum context length exceeded"
              {| segment_tokens := [("Answer", 3); ("Context", 9)];
                 base_prompt_tokens := 484;
                 total_tokens := 496 |})).
  - vm_compute. reflexivity.
  - vm_compute. reflexivity.
Defined.

End CallOutcomes.

(* ================================================================== *)
(** ** Further properties of the metrics                               *)
(* ================================================================== *)

Section MetricProperties.

Import answer_contains_pii_metric.

(** X4.  The PII metric can be constructed exactly when a Textual key is
    passed or set in the environment; otherwise the constructor raises a
    [ValueError].  A constructed metric holds the requested types
    lowercased (by whatever function stands for [str.lower]) and the
    connection made with the passed key (with no key when it comes from
    the environment). *)
Theorem pii_metric_needs_key (lower : string -> string)
    (requested : list string) (key env : option string)
    (connect : string -> option string -> TonicTextual) :
  ((exists self, init lower requested key env connect = Return self)
   <-> key <> None \/ env <> None)
  /\ ((exists msg, init lower requested key env connect = Raise (ValueError msg))
      <-> key = None /\ env = None)
  /\ (forall self,
        init lower requested key env connect = Return self ->
        pii_types self = map lower requested
        /\ textual self = connect "https://textual.tonic.ai" key).
Proof.
  unfold init. destruct key as [k|]; [|destruct env as [k|]].
  - split; [|split].
    + split; [intros _; left; discriminate | intros _; eauto].
    + split; [intros (msg & H); discriminate | intros [H _]; discriminate].
    + intros self H. injection H as <-. now split.
  - split; [|split].
    + split; [intros _; right; discriminate | intros _; eauto].
    + split; [intros (msg & H); discriminate | intros [_ H]; discriminate].
    + intros self H. injection H as <-. now split.
  - split; [|split].
    + split; [intros (self & H); discriminate | intros [H | H]; congruence].
    + split; [now intros _ | intros _; eauto].
    + intros self H. discriminate.
Qed.

Lemma scan_results_mono (lower : string -> string)
    (pts pts' : list string) (ds ds' : list DeidentifyResult) :
  incl pts pts' -> incl (map label ds) (map label ds') ->
  scan_results lower pts ds = 1%Q -> scan_results lower pts' ds' = 1%Q.
Proof.
  intros Hp Hd H. apply scan_results_one in H. destruct H as (d & Hin & Hl).
  assert (Hin' : In (label d) (map label ds')) by (apply Hd; now apply in_map).
  apply in_map_iff in Hin'. destruct Hin' as (d' & Heq & Hin').
  apply scan_results_one. exists d'. split; [exact Hin'|].
  rewrite Heq. now apply Hp.
Qed.

(** X5.  Detecting more labels, or asking for more types, never turns a
    score of 1.0 into 0.0: when the labels of one reply are among those of
    another and the types of one metric among those of another, a score of
    1.0 for the first gives 1.0 for the second. *)
Theorem pii_score_monotone (lower : string -> string)
    (self self' : AnswerContainsPiiMetric) (r r' : LLMResponse)
    (svc svc' : OpenAIService) (resp resp' : RedactionResponse) :
  redact (textual self) (join nl (llm_context_list r)) = Return resp ->
  redact (textual self') (join nl (llm_context_list r')) = Return resp' ->
  incl (pii_types self) (pii_types self') ->
  incl (map label (de_identify_results resp)) (map label (de_identify_results resp')) ->
  metric_callback lower self r svc = Return 1%Q ->
  metric_callback lower self' r' svc' = Return 1%Q.
Proof.
  intros Hr Hr' Hp Hd H.
  rewrite (metric_callback_returns lower self r svc resp Hr) in H.
  rewrite (metric_callback_returns lower self' r' svc' resp' Hr').
  injection H as H. f_equal. exact (scan_results_mono lower _ _ _ _ Hp Hd H).
Qed.

Lemma pii_score_monotone_witness :
  metric_callback ascii_lower {| pii_types := ["email"; "phone"];
                     textual := fixed_textual ["Name"; "Email"; "Email"] |}
                  {| llm_answer := "Write to us."; llm_context_list := ["Bob"] |}
                  (echo_service "gpt-4")
  = Return 1%Q.
Proof.
  apply (pii_score_monotone ascii_lower
           {| pii_types := ["email"]; textual := fixed_textual ["Email"; "Name"] |}
           {| pii_types := ["email"; "phone"];
              textual := fixed_textual ["Name"; "Email"; "Email"] |}
           {| llm_answer := "Write to us."; llm_context_list := ["Mail: a@b.org"; "Bob"] |}
           {| llm_answer := "Write to us."; llm_context_list := ["Bob"] |}
           (echo_service "gpt-4") (echo_service "gpt-4")
           {| de_identify_results :=
                [ {| label := "Email"; span_start := 0; span_end := 0 |};
                  {| label := "Name"; span_start := 0; span_end := 0 |} ] |}
           {| de_identify_results :=
                [ {| label := "Name"; span_start := 0; span_end := 0 |};
                  {| label := "Email"; span_start := 0; span_end := 0 |};
                  {| label := "Email"; span_start := 0; span_end := 0 |} ] |}).
  - reflexivity.
  - reflexivity.
  - intros x [<- | []]. now left.
  - intros x [<- | [<- | []]]; cbn; auto.
  - reflexivity.
Defined.

(** X6.  The score does not depend on the order in which the entities
    were detected, on the order of the requested types, or on how often a
    label or a type is repeated: replies with the same set of labels,
    scored by metrics with the same set of types, get the same score,
    although the loop returns at the first match. *)
Theorem pii_score_order_independent (lower : string -> string)
    (self self' : AnswerContainsPiiMetric) (r r' : LLMResponse)
    (svc svc' : OpenAIService) (resp resp' : RedactionResponse) :
  redact (textual self) (join nl (llm_context_list r)) = Return resp ->
  redact (textual self') (join nl (llm_context_list r')) = Return resp' ->
  (forall t, In t (pii_types self) <-> In t (pii_types self')) ->
  (forall l, In l (map label (de_identify_results resp))
             <-> In l (map label (de_identify_results resp'))) ->
  metric_callback lower self r svc = metric_callback lower self' r' svc'.
Proof.
  intros Hr Hr' Hp Hd.
  rewrite (metric_callback_returns lower self r svc resp Hr).
  rewrite (metric_callback_returns lower self' r' svc' resp' Hr').
  f_equal.
  assert (F : scan_results lower (pii_types self) (de_identify_results resp) = 1%Q ->
              scan_results lower (pii_types self') (de_identify_results resp') = 1%Q).
  { apply scan_results_mono; intros x Hx; [now apply Hp | now apply Hd]. }
  assert (B : scan_results lower (pii_types self') (de_identify_results resp') = 1%Q ->
              scan_results lower (pii_types self) (de_identify_results resp) = 1%Q).
  { apply scan_results_mono; intros x Hx; [now apply Hp | now apply Hd]. }
  destruct (scan_results_cases lower (pii_types self) (de_identify_results resp))
    as [E | E],
    (scan_results_cases lower (pii_types self') (de_identify_results resp'))
    as [E' | E'];
    try congruence.
  - rewrite (F E) in E'. discriminate.
  - rewrite (B E') in E. discriminate.
Qed.

Lemma pii_score_order_independent_witness :
  metric_callback ascii_lower {| pii_types := ["email"; "phone"];
                     textual := fixed_textual ["Email"; "Name"] |}
                  {| llm_answer := "Write to us."; llm_context_list := ["Mail: a@b.org"] |}
                  (echo_service "gpt-4")
  = metric_callback ascii_lower {| pii_types := ["phone"; "email"; "phone"];
                       textual := fixed_textual ["Name"; "Email"; "Name"] |}
                    {| llm_answer := "Call us."; llm_context_list := ["Bob"] |}
                    overflowing_service.
Proof.
  apply (pii_score_order_independent ascii_lower
           {| pii_types := ["email"; "phone"]; textual := fixed_textual ["Email"; "Name"] |}
           {| pii_types := ["phone"; "email"; "phone"];
              textual := fixed_textual ["Name"; "Email"; "Name"] |}
           {| llm_answer := "Write to us."; llm_context_list := ["Mail: a@b.org"] |}
           {| llm_answer := "Call us."; llm_context_list := ["Bob"] |}
           (echo_service "gpt-4") overflowing_service
           {| de_identify_results :=
                [ {| label := "Email"; span_start := 0; span_end := 0 |};
                  {| label := "Name"; span_start := 0; span_end := 0 |} ] |}
           {| de_identify_results :=
                [ {| label := "Name"; span_start := 0; span_end := 0 |};
                  {| label := "Email"; span_start := 0; span_end := 0 |};
                  {| label := "Name"; span_start := 0; span_end := 0 |} ] |}).
  - reflexivity.
  - reflexivity.
  - intros t. cbn. intuition.
  - intros l. cbn. intuition.
Defined.

(** X7.  A metric with no requested type, and a reply with no detected
    entity, give the score 0.0 whenever the redaction call returns; the
    redaction service is still called, and its failure is still raised,
    when the context list is empty, with the empty text. *)
Theorem pii_score_without_types_or_entities (lower : string -> string)
    (self : AnswerContainsPiiMetric) (r : LLMResponse) (svc : OpenAIService) :
  (forall resp,
     redact (textual self) (join nl (llm_context_list r)) = Return resp ->
     pii_types self = [] \/ de_identify_results resp = [] ->
     metric_callback lower self r svc = Return 0%Q)
  /\ (llm_context_list r = [] ->
      metric_callback lower self r svc
      = match redact (textual self) EmptyString with
        | Return resp =>
            Return (scan_results lower (pii_types self) (de_identify_results resp))
        | Raise e => if is_Exception e then Raise (ValueError cannot_compute) else Raise e
        end).
Proof.
  split.
  - intros resp Hr H. rewrite (metric_callback_returns lower self r svc resp Hr).
    f_equal. apply scan_results_zero. intros d Hin Hl.
    destruct H as [H | H].
    + rewrite H in Hl. destruct Hl.
    + rewrite H in Hin. destruct Hin.
  - intros H. unfold metric_callback. rewrite H. reflexivity.
Qed.

(** X8.  The binary consistency score is returned only when the call
    returned a reply and the parser a boolean, and it is then 1 for [True]
    and 0 for [False]; an exception of the call or of the parser is raised
    as it came, and no score stands in for it. *)
Theorem consistency_score_zero_or_one
    (call : string -> list string -> OpenAIService -> result string)
    (parse : string -> result bool)
    (r : LLMResponse) (svc : OpenAIService) :
  (forall v : Z,
     answer_consistency_binary_metric.score call parse r svc = Return v <->
     exists reply b,
       call (llm_answer r) (llm_context_list r) svc = Return reply
       /\ parse reply = Return b
       /\ v = (if b then 1 else 0))
  /\ (forall v : Z,
        answer_consistency_binary_metric.score call parse r svc = Return v ->
        v = 0 \/ v = 1)
  /\ (forall e : exn,
        call (llm_answer r) (llm_context_list r) svc = Raise e ->
        answer_consistency_binary_metric.score call parse r svc = Raise e)
  /\ (forall (reply : string) (e : exn),
        call (llm_answer r) (llm_context_list r) svc = Return reply ->
        parse reply = Raise e ->
        answer_consistency_binary_metric.score call parse r svc = Raise e).
Proof.
  unfold answer_consistency_binary_metric.score.
  destruct (call (llm_answer r) (llm_context_list r) svc) as [reply|e] eqn:C.
  - destruct (parse reply) as [b|e] eqn:P.
    + repeat split.
      * intros H. injection H as <-. now exists reply, b.
      * intros (reply' & b' & Hc & Hp & ->). injection Hc as <-.
        rewrite P in Hp. now injection Hp as <-.
      * intros v H. injection H as <-. destruct b; auto.
      * discriminate.
      * intros reply' e Hc Hp. injection Hc as <-. congruence.
    + repeat split.
      * discriminate.
      * intros (reply' & b' & Hc & Hp & _). injection Hc as <-. congruence.
      * discriminate.
      * discriminate.
      * intros reply' e' Hc Hp. injection Hc as <-. congruence.
  - repeat split.
    + discriminate.
    + intros (reply' & b' & Hc & _). discriminate.
    + discriminate.
    + intros e' H. now injection H as <-.
    + discriminate.
Qed.

End MetricProperties.

(* ================================================================== *)
(** ** Further properties of the prompts and of the token counts       *)
(* ================================================================== *)

Section PromptProperties.

Lemma enumerate_from_app {A : Type} (l : list A) :
  forall (k : Z) (x : A),
    enumerate_from k (l ++ [x])%list
    = (enumerate_from k l ++ [(k + Z.of_nat (List.length l), x)])%list.
Proof.
  induction l as [|y l IH]; intros k x; cbn [enumerate_from app List.length].
  - now rewrite Z.add_0_r.
  - rewrite IH.
    replace (k + 1 + Z.of_nat (List.length l))
      with (k + Z.of_nat (S (List.length l))) by lia.
    reflexivity.
Qed.

Lemma render_blocks_app (bs bs' : list string) :
  render_blocks (bs ++ bs')%list = render_blocks bs ++ render_blocks bs'.
Proof.
  induction bs as [|b bs IH]; cbn [render_blocks app].
  - reflexivity.
  - rewrite IH. now rewrite !str_app_assoc.
Qed.

Lemma context_blocks_app (context_list : list string) (context : string) :
  context_blocks (context_list ++ [context])%list
  = (context_blocks context_list
     ++ [context_block (Z.of_nat (List.length context_list)) context])%list.
Proof.
  unfold context_blocks, enumerate.
  now rewrite enumerate_from_app, map_app.
Qed.

(** X9.  A context added at the end of the list leaves the blocks before
    it as they were and adds one block, numbered with the former length of
    the list: the derivation prompt grows by that block at its end, the
    consistency prompt by that block before the answer line. *)
Theorem appended_context_adds_last_block
    (first : string) (context_list : list string) (context : string) :
  llm_calls.statement_derived_from_context_main_message first (context_list ++ [context])%list
  = llm_calls.statement_derived_from_context_main_message first context_list
    ++ nl ++ nl ++ "CONTEXT " ++ str_int (Z.of_nat (List.length context_list)) ++ ":"
    ++ nl ++ context
    ++ nl ++ "END OF CONTEXT " ++ str_int (Z.of_nat (List.length context_list))
  /\ llm_calls.answer_consistent_with_context_main_message first (context_list ++ [context])%list
  = llm_calls.answer_consistent_with_context_instruction
    ++ render_blocks (context_blocks context_list)
    ++ nl ++ nl ++ "CONTEXT " ++ str_int (Z.of_nat (List.length context_list)) ++ ":"
    ++ nl ++ context
    ++ nl ++ "END OF CONTEXT " ++ str_int (Z.of_nat (List.length context_list))
    ++ nl ++ nl ++ "ANSWER: " ++ first.
Proof.
  split.
  - pose proof (build_prompt_shape (DerivationInputs first (context_list ++ [context])%list)) as S1.
    pose proof (build_prompt_shape (DerivationInputs first context_list)) as S0.
    cbn [build_prompt task_of instruction fields_text] in S1, S0.
    rewrite S1, S0, context_blocks_app, render_blocks_app.
    cbn [render_blocks]. unfold context_block. str_norm.
    rewrite ?str_app_nil_r. reflexivity.
  - pose proof (build_prompt_shape (ConsistencyInputs first (context_list ++ [context])%list)) as S1.
    cbn [build_prompt task_of instruction fields_text] in S1.
    rewrite S1, context_blocks_app, render_blocks_app.
    cbn [render_blocks]. unfold context_block. str_norm.
    rewrite ?str_app_nil_r. reflexivity.
Qed.

(** X10.  The labels and delimiters are not protected against the texts.
    A question that ends with a line [REFERENCE ANSWER: x] gives the same
    similarity prompt as the question without that line and a reference
    answer that starts with [x] and a line [REFERENCE ANSWER: ].  And a
    single context that holds the end of block 0, a block 1 and an answer
    line gives the same consistency prompt as two contexts: the number of
    contexts cannot be read off the prompt. *)
Theorem field_texts_can_forge_delimiters
    (question x reference_answer llm_answer context0 context1 answer1 answer2 : string) :
  llm_calls.similarity_score_main_message
    (question ++ nl ++ "REFERENCE ANSWER: " ++ x) reference_answer llm_answer
  = llm_calls.similarity_score_main_message
      question (x ++ nl ++ "REFERENCE ANSWER: " ++ reference_answer) llm_answer
  /\ llm_calls.answer_consistent_with_context_main_message
       answer2
       [context0 ++ nl ++ "END OF CONTEXT 0" ++ nl ++ nl ++ "CONTEXT 1:" ++ nl ++ context1
        ++ nl ++ "END OF CONTEXT 1" ++ nl ++ nl ++ "ANSWER: " ++ answer1]
     = llm_calls.answer_consistent_with_context_main_message
         (answer1 ++ nl ++ "END OF CONTEXT 0" ++ nl ++ nl ++ "ANSWER: " ++ answer2)
         [context0; context1].
Proof.
  split.
  - unfold llm_calls.similarity_score_main_message. str_norm. reflexivity.
  - unfold llm_calls.answer_consistent_with_context_main_message, enumerate.
    cbn [enumerate_from fold_left llm_calls.append_context].
    change (str_int (0 + 1)) with "1". change (str_int 0) with "0".
    str_norm. reflexivity.
Qed.

End PromptProperties.

Section TokenCounts.



Lemma additive_counter_empty (count : string -> Z) :
  additive_counter count -> count EmptyString = 0.
Proof.
  intros H. pose proof (H EmptyString EmptyString) as E. cbn [String.append] in E. lia.
Qed.

Lemma count_render_blocks (count : string -> Z) (context_list : list string) :
  additive_counter count ->
  forall k : Z,
    count (render_blocks (context_blocks_from k context_list))
    = count (render_blocks
               (context_blocks_from k (map (fun _ => EmptyString) context_list)))
      + sum_Z (map count context_list).
Proof.
  intros H. pose proof (additive_counter_empty count H) as H0.
  assert (B : forall i text,
             count (context_block i text)
             = count (context_block i EmptyString) + count text).
  { intros i text. unfold context_block. rewrite !H, H0. lia. }
  induction context_list as [|c cl IH]; intros k.
  - cbn. lia.
  - unfold context_blocks_from in *.
    cbn [map enumerate_from render_blocks fst snd].
    rewrite !H, IH, (B k c). unfold sum_Z. cbn [map fold_right]. lia.
Qed.

(** The counter of the service that counts characters is additive. *)
Lemma overflowing_service_additive :
  additive_counter (get_token_count overflowing_service).
Proof.
  intros a b. cbn [get_token_count overflowing_service].
  rewrite str_length_app. lia.
Qed.

(** X12.  For a counter that adds up over concatenation, the base-prompt
    count of a call is the count of its prompt with every text emptied
    (a context list keeping its length): it is the cost of the
    instruction, the labels and the delimiters, and does not depend on
    what the texts say. *)
Theorem base_prompt_tokens_is_template_cost (i : task_inputs) (svc : OpenAIService) :
  additive_counter (get_token_count svc) ->
  base_prompt_tokens (token_report i svc)
  = get_token_count svc (build_prompt (blank_inputs i)).
Proof.
  intros H. pose proof (additive_counter_empty _ H) as H0.
  rewrite token_report_residual, token_report_total, token_report_segments.
  rewrite !build_prompt_shape.
  destruct i; cbn [blank_inputs task_of fields_text reported_counts map snd];
    unfold sum_Z; cbn [fold_right];
    rewrite ?H;
    try (change (context_blocks context_list) with (context_blocks_from 0 context_list);
         change (context_blocks (map (fun _ : string => EmptyString) context_list))
           with (context_blocks_from 0 (map (fun _ : string => EmptyString) context_list));
         rewrite (count_render_blocks _ context_list H 0));
    rewrite ?H0; unfold sum_Z; lia.
Qed.

Lemma base_prompt_tokens_is_template_cost_witness :
  base_prompt_tokens
    (token_report (ConsistencyInputs "yes" ["aaaaaaa"; "bb"]) overflowing_service)
  = get_token_count overflowing_service
      (build_prompt (blank_inputs (ConsistencyInputs "yes" ["aaaaaaa"; "bb"]))).
Proof.
  apply (base_prompt_tokens_is_template_cost
           (ConsistencyInputs "yes" ["aaaaaaa"; "bb"]) overflowing_service).
  exact overflowing_service_additive.
Defined.

End TokenCounts.

(* ================================================================== *)
(** ** Reading the inputs back from a prompt                           *)
(* ================================================================== *)

Section ReadingBack.

Lemma single_line_cons (c : ascii) (s : string) :
  single_line (String c s) -> c <> ascii_of_nat 10 /\ single_line s.
Proof.
  intros H. split.
  - intros ->. apply H. exists EmptyString, s. reflexivity.
  - intros Hs. apply H. now apply contains_cons.
Qed.

(** Two texts without a line break, each followed by a line break, are
    equal when what they start is equal, and so is what follows. *)
Lemma split_at_newline (a : string) :
  forall a' x x' : string,
    single_line a -> single_line a' ->
    a ++ String (ascii_of_nat 10) x = a' ++ String (ascii_of_nat 10) x' ->
    a = a' /\ x = x'.
Proof.
  induction a as [|c a IH]; intros [|c' a'] x x' Ha Ha' H; cbn [String.append] in H.
  - injection H as ->. now split.
  - injection H as <- _. now destruct (proj1 (single_line_cons _ _ Ha')).
  - injection H as -> _. now destruct (proj1 (single_line_cons _ _ Ha)).
  - injection H as -> H.
    destruct (IH a' x x' (proj2 (single_line_cons _ _ Ha))
                 (proj2 (single_line_cons _ _ Ha')) H) as [-> ->].
    now split.
Qed.

(** The rendered blocks of single-line contexts, followed by a text that
    does not start like a block, give the contexts and that text back. *)
Lemma render_blocks_inj (cl : list string) :
  forall (cl' : list string) (k : Z) (t t' : string),
    Forall single_line cl -> Forall single_line cl' ->
    not_block_start t -> not_block_start t' ->
    render_blocks (context_blocks_from k cl) ++ t
    = render_blocks (context_blocks_from k cl') ++ t' ->
    cl = cl' /\ t = t'.
Proof.
  unfold context_blocks_from.
  induction cl as [|c cl IH]; intros [|c' cl'] k t t' Hc Hc' Ht Ht' H;
    cbn [enumerate_from map render_blocks fst snd] in H.
  - now split.
  - exfalso. cbn [String.append] in H. eapply Ht. rewrite H.
    unfold context_block. str_norm. reflexivity.
  - exfalso. cbn [String.append] in H. eapply Ht'. rewrite <- H.
    unfold context_block. str_norm. reflexivity.
  - unfold context_block in H. revert H. str_norm. intros H.
    repeat (injection H as H).
    apply str_app_inv_head in H.
    repeat (injection H as H).
    inversion Hc as [|? ? Hc1 Hc2]; subst.
    inversion Hc' as [|? ? Hc1' Hc2']; subst.
    destruct (split_at_newline c c' _ _ Hc1 Hc1' H) as [-> H'].
    repeat (injection H' as H').
    apply str_app_inv_head in H'.
    destruct (IH cl' (k + 1) t t' Hc2 Hc2' Ht Ht' H') as [-> ->].
    now split.
Qed.

Lemma prompt_head (i : task_inputs) :
  String.substring 0 36 (build_prompt i)
  = String.substring 0 36 (instruction (task_of i)).
Proof. rewrite build_prompt_shape. destruct i; reflexivity. Qed.

Lemma instruction_head_inj (t1 t2 : EvaluationTask) :
  String.substring 0 36 (instruction t1) = String.substring 0 36 (instruction t2) ->
  t1 = t2.
Proof.
  destruct t1, t2; intros H; try reflexivity; vm_compute in H; discriminate.
Qed.

(** The prompts of two different tasks differ, whatever the inputs. *)
Lemma build_prompt_task (i1 i2 : task_inputs) :
  build_prompt i1 = build_prompt i2 -> task_of i1 = task_of i2.
Proof.
  intros H. apply instruction_head_inj. rewrite <- !prompt_head. now rewrite H.
Qed.

(** The text of the fields of single-line inputs gives the inputs back,
    once the task is known. *)
Lemma fields_text_inj (i1 i2 : task_inputs) :
  task_of i1 = task_of i2 ->
  single_line_inputs i1 -> single_line_inputs i2 ->
  fields_text i1 = fields_text i2 ->
  i1 = i2.
Proof.
  intros T S1 S2 H.
  destruct i1, i2; try discriminate T; clear T;
    cbn [fields_text single_line_inputs] in H, S1, S2.
  - destruct S1 as (Q1 & R1 & _), S2 as (Q2 & R2 & _).
    revert H. str_norm. intros H. repeat (injection H as H).
    destruct (split_at_newline _ _ _ _ Q1 Q2 H) as [-> H1].
    repeat (injection H1 as H1).
    destruct (split_at_newline _ _ _ _ R1 R2 H1) as [-> H2].
    repeat (injection H2 as H2).
    apply str_app_inv_tail in H2. now subst.
  - destruct S1 as (_ & C1), S2 as (_ & C2).
    change (context_blocks context_list) with (context_blocks_from 0 context_list) in H.
    change (context_blocks context_list0) with (context_blocks_from 0 context_list0) in H.
    assert (N : forall x, not_block_start (nl ++ nl ++ "ANSWER: " ++ x))
      by (intros x u; str_norm; discriminate).
    destruct (render_blocks_inj _ _ 0 _ _ C1 C2 (N _) (N _) H) as [-> E].
    revert E. str_norm. intros E. repeat (injection E as E). now subst.
  - destruct S1 as (Q1 & _), S2 as (Q2 & _).
    revert H. str_norm. intros H. repeat (injection H as H).
    destruct (split_at_newline _ _ _ _ Q1 Q2 H) as [-> H1].
    repeat (injection H1 as H1).
    apply str_app_inv_tail in H1. now subst.
  - destruct S1 as (Q1 & _), S2 as (Q2 & _).
    revert H. str_norm. intros H. repeat (injection H as H).
    destruct (split_at_newline _ _ _ _ Q1 Q2 H) as [-> H1].
    repeat (injection H1 as H1).
    apply str_app_inv_tail in H1. now subst.
  - revert H. str_norm. intros H. repeat (injection H as H). now subst.
  - destruct S1 as (Q1 & C1), S2 as (Q2 & C2).
    revert H. str_norm. intros H. repeat (injection H as H).
    destruct (split_at_newline _ _ _ _ Q1 Q2 H) as [-> H1].
    repeat (injection H1 as H1).
    change (context_blocks context_list) with (context_blocks_from 0 context_list) in H1.
    change (context_blocks context_list0) with (context_blocks_from 0 context_list0) in H1.
    rewrite <- (str_app_nil_r (render_blocks (context_blocks_from 0 context_list))) in H1.
    rewrite <- (str_app_nil_r (render_blocks (context_blocks_from 0 context_list0))) in H1.
    assert (N : not_block_start EmptyString)
      by (intros u; str_norm; discriminate).
    destruct (render_blocks_inj _ _ 0 _ _ C1 C2 N N H1) as [-> _].
    reflexivity.
  - revert H. str_norm. intros H. repeat (injection H as H).
    destruct (split_at_newline _ _ _ _ S1 S2 H) as [-> _]. reflexivity.
Qed.

(** X13.  When no text of the inputs has a line break, the prompt of
    [tonic_validate] determines the task and every input: two such inputs
    with the same prompt are the same task with the same texts and the
    same context list. *)
Theorem single_line_inputs_read_back (i1 i2 : task_inputs) :
  single_line_inputs i1 -> single_line_inputs i2 ->
  build_prompt i1 = build_prompt i2 ->
  i1 = i2.
Proof.
  intros S1 S2 H.
  pose proof (build_prompt_task _ _ H) as T.
  rewrite !build_prompt_shape, T in H. apply str_app_inv_head in H.
  now apply fields_text_inj.
Qed.

Lemma single_line_inputs_read_back_witness :
  ConsistencyInputs "Paris." ["France"; "Capital"]
  = ConsistencyInputs "Paris." ["France"; "Capital"].
Proof.
  apply (single_line_inputs_read_back
           (ConsistencyInputs "Paris." ["France"; "Capital"])
           (ConsistencyInputs "Paris." ["France"; "Capital"])).
  - split; [apply not_contains; reflexivity|].
    repeat constructor; apply not_contains; reflexivity.
  - split; [apply not_contains; reflexivity|].
    repeat constructor; apply not_contains; reflexivity.
  - reflexivity.
Defined.

Lemma tval_instruction_head (t : EvaluationTask) (h rest : string) :
  tval_instruction t = Some h ->
  String.substring 0 36 (h ++ rest) = String.substring 0 36 h.
Proof.
  destruct t; cbn [tval_instruction]; intros H; try discriminate;
    injection H as <-; vm_compute; reflexivity.
Qed.

Lemma tval_instruction_head_inj (t1 t2 : EvaluationTask) (h1 h2 : string) :
  tval_instruction t1 = Some h1 -> tval_instruction t2 = Some h2 ->
  String.substring 0 36 h1 = String.substring 0 36 h2 ->
  t1 = t2.
Proof.
  destruct t1, t2; cbn [tval_instruction]; intros H1 H2 H; try discriminate;
    try reflexivity; injection H1 as <-; injection H2 as <-;
    vm_compute in H; discriminate.
Qed.

(** X14.  The same for the prompts of [tval]: when no text of the inputs
    has a line break, two inputs with the same prompt are the same task
    with the same texts and the same context list. *)
Theorem tval_single_line_inputs_read_back (i1 i2 : task_inputs) (p : string) :
  single_line_inputs i1 -> single_line_inputs i2 ->
  tval_build_prompt i1 = Some p -> tval_build_prompt i2 = Some p ->
  i1 = i2.
Proof.
  intros S1 S2 P1 P2.
  destruct (tval_build_prompt_shape i1 p P1) as (h1 & I1 & E1).
  destruct (tval_build_prompt_shape i2 p P2) as (h2 & I2 & E2).
  assert (T : task_of i1 = task_of i2).
  { apply (tval_instruction_head_inj _ _ h1 h2 I1 I2).
    rewrite <- (tval_instruction_head _ h1 (fields_text i1) I1).
    rewrite <- (tval_instruction_head _ h2 (fields_text i2) I2).
    now rewrite <- E1, <- E2. }
  rewrite T in I1. rewrite I1 in I2. injection I2 as <-.
  rewrite E1 in E2. apply str_app_inv_head in E2.
  now apply fields_text_inj.
Qed.

Lemma tval_single_line_inputs_read_back_witness :
  DerivationInputs "Paris is in France." ["France"; "Capital"]
  = DerivationInputs "Paris is in France." ["France"; "Capital"].
Proof.
  apply (tval_single_line_inputs_read_back
           (DerivationInputs "Paris is in France." ["France"; "Capital"])
           (DerivationInputs "Paris is in France." ["France"; "Capital"])
           (tval_llm_calls.ask_whether_statement_derived_from_context_main_message
              "Paris is in France." ["France"; "Capital"])).
  - split; [apply not_contains; reflexivity|].
    repeat constructor; apply not_contains; reflexivity.
  - split; [apply not_contains; reflexivity|].
    repeat constructor; apply not_contains; reflexivity.
  - reflexivity.
  - reflexivity.
Defined.

End ReadingBack.
